(** * InvoiceAutomation: the invoice counter, the totals and the identifier

    A shallow embedding of [app.py]: the persisted invoice counter
    ([get_next_invoice_number]), the two request handlers ([calculate] and
    [download]) and the part of [generate_invoice] that decides the invoice
    number, the dates and the amounts.

    Python values that reach the program come from JSON, so they are
    modelled by the type [json]; Python floats are IEEE binary64 numbers,
    modelled by [spec_float] at precision 53 and exponent bound 1024. *)

From Stdlib Require Import ZArith NArith List String Ascii Bool Lia.
From Stdlib Require Import SpecFloat DecimalString DecimalN Sorted.
Import ListNotations.

Local Open Scope string_scope.
Local Open Scope Z_scope.

(** ** Python values and exceptions *)

Module Py.

Abbreviation float := spec_float.

(** A value produced by [json.load] or by [request.json]: [None], a bool,
    an int, a float, a str, a list or a dict.  A dict is a list of
    bindings with distinct keys, in insertion order. *)
#[warnings="-register-all"]
Inductive json :=
| JNull
| JBool (b : bool)
| JInt (z : Z)
| JFloat (f : float)
| JString (s : string)
| JArray (l : list json)
| JObject (kvs : list (string * json)).

(** The exceptions that the modelled code can raise. *)
Inductive exn :=
| JSONDecodeError                 (* json.load on text that is not JSON *)
| FileNotFoundError               (* open() for reading on a missing file *)
| PermissionError                 (* open() on a file that cannot be read *)
| AttributeError                  (* .get on a value that is not a dict *)
| TypeError                       (* float(None), 'a' + 1, iterating an int *)
| ValueError_float (s : string)   (* could not convert string to float *)
| ValueError_format               (* format code 'd' applied to a float *)
| OverflowError                   (* int too large for a float, date out of range *)
| RenderError.                    (* raised by the document library *)

Inductive result (A : Type) :=
| Ok (a : A)
| Raise (e : exn).
Arguments Ok {A} a.
Arguments Raise {A} e.

Definition rbind {A B} (r : result A) (k : A -> result B) : result B :=
  match r with
  | Ok a => k a
  | Raise e => Raise e
  end.

Declare Scope res_scope.
Delimit Scope res_scope with res.
Notation "x <- c ;; k" := (rbind c (fun x => k))
  (at level 61, c at next level, right associativity) : res_scope.

(** [d.get(key, default)] on a dict given as a list of bindings. *)
Fixpoint assoc (key : string) (kvs : list (string * json)) : option json :=
  match kvs with
  | [] => None
  | (k, v) :: rest => if String.eqb k key then Some v else assoc key rest
  end.

Definition dict_get (d : json) (key : string) (default : json) : result json :=
  match d with
  | JObject kvs =>
      match assoc key kvs with
      | Some v => Ok v
      | None => Ok default
      end
  | _ => Raise AttributeError
  end.

(** ** Floats *)

Definition prec : Z := 53.
Definition emax : Z := 1024.

Definition fadd : float -> float -> float := SFadd prec emax.
Definition fmul : float -> float -> float := SFmul prec emax.
Definition fdiv : float -> float -> float := SFdiv prec emax.

(** [float(z)] for a Python int: rounded to nearest even, [OverflowError]
    when the rounded value is not finite. *)
Definition float_of_int (z : Z) : result float :=
  match binary_normalize prec emax z 0 false with
  | S754_infinity _ => Raise OverflowError
  | f => Ok f
  end.

Definition f0 : float := S754_zero false.
Definition f1 : float := Eval vm_compute in binary_normalize prec emax 1 0 false.
Definition f100 : float := Eval vm_compute in binary_normalize prec emax 100 0 false.

(** Python numbers: the accumulators of the handlers start as the int [0]
    and become floats at the first addition. *)
Inductive num :=
| PInt (z : Z)
| PFloat (f : float).

Definition num_to_float (n : num) : result float :=
  match n with
  | PInt z => float_of_int z
  | PFloat f => Ok f
  end.

(** [a + b] on numbers. *)
Definition py_add (a b : num) : result num :=
  match a, b with
  | PInt x, PInt y => Ok (PInt (x + y))
  | _, _ =>
      (x <- num_to_float a ;; y <- num_to_float b ;; Ok (PFloat (fadd x y)))%res
  end.

(** The numeric reading of a value, for [+]: bools are ints in Python. *)
Definition as_num (v : json) : result num :=
  match v with
  | JInt z => Ok (PInt z)
  | JBool b => Ok (PInt (if b then 1 else 0))
  | JFloat f => Ok (PFloat f)
  | _ => Raise TypeError
  end.

Definition json_of_num (n : num) : json :=
  match n with
  | PInt z => JInt z
  | PFloat f => JFloat f
  end.

(** ** Text *)

(** [str(n)] for a natural number and for an int. *)
Definition str_of_N (n : N) : string := NilEmpty.string_of_uint (N.to_uint n).

Definition str_of_Z (z : Z) : string :=
  if z <? 0 then ("-" ++ str_of_N (Z.abs_N z))%string else str_of_N (Z.to_N z).

Fixpoint zeros (n : nat) : string :=
  match n with
  | O => ""
  | S k => String "0" (zeros k)
  end.

(** [s] padded with zeros on the left to at least [w] characters. *)
Definition zfill (w : nat) (s : string) : string :=
  (zeros (w - String.length s) ++ s)%string.

(** [f'{z:03d}']: the sign counts in the width and comes before the zeros. *)
Definition format_03d (z : Z) : string :=
  if z <? 0 then ("-" ++ zfill 2 (str_of_N (Z.abs_N z)))%string
  else zfill 3 (str_of_N (Z.to_N z)).

(** [a / b] rounded to the nearest integer, ties to even ([0 <= a], [0 < b]). *)
Definition div_half_even (a b : Z) : Z :=
  let q := a / b in
  match 2 * (a mod b) ?= b with
  | Lt => q
  | Gt => q + 1
  | Eq => if Z.even q then q else q + 1
  end.

(** The magnitude [m * 2^e] in hundredths, correctly rounded. *)
Definition hundredths (m : positive) (e : Z) : Z :=
  match e with
  | Zneg p => div_half_even (Zpos m * 100) (2 ^ Zpos p)
  | _ => Zpos m * 100 * 2 ^ e
  end.

(** [f'{x:.2f}'] for a float. *)
Definition format_2f (x : float) : string :=
  match x with
  | S754_nan => "nan"
  | S754_infinity s => if s then "-inf" else "inf"
  | S754_zero s => if s then "-0.00" else "0.00"
  | S754_finite s m e =>
      let c := hundredths m e in
      ((if s then "-" else "") ++ str_of_Z (c / 100) ++ "." ++
       zfill 2 (str_of_Z (c mod 100)))%string
  end.

(** [f'{n:.2f}'] for a number: an int is converted to a float first. *)
Definition format_num_2f (n : num) : result string :=
  (x <- num_to_float n ;; Ok (format_2f x))%res.

(** ** [float(s)] for a string *)

Definition is_digit (c : ascii) : bool :=
  let n := nat_of_ascii c in (48 <=? n)%nat && (n <=? 57)%nat.

(** The blanks that [float] strips from both ends of a text
    ([Py_ISSPACE]): the space and the characters 9 to 13. *)
Definition is_space (c : ascii) : bool :=
  let n := nat_of_ascii c in
  (n =? 32)%nat || ((9 <=? n)%nat && (n <=? 13)%nat).

Fixpoint lstrip (cs : list ascii) : list ascii :=
  match cs with
  | c :: rest => if is_space c then lstrip rest else cs
  | [] => []
  end.

Definition strip (cs : list ascii) : list ascii :=
  rev (lstrip (rev (lstrip cs))).

(** Underscores may only stand between two digits; they are dropped. *)
Fixpoint drop_underscores (prev : option ascii) (cs : list ascii)
  : option (list ascii) :=
  let after_digit :=
    match prev with Some p => is_digit p | None => false end in
  match cs with
  | [] => if match prev with Some "_"%char => true | _ => false end
          then None else Some []
  | c :: rest =>
      if Ascii.eqb c "_" then
        if after_digit then drop_underscores (Some c) rest else None
      else
        if match prev with Some "_"%char => negb (is_digit c) | _ => false end
        then None
        else option_map (cons c) (drop_underscores (Some c) rest)
  end.

(** The digits at the front of [cs], read on top of [acc]: the value, how
    many digits were read, and what follows them. *)
Fixpoint take_digits (cs : list ascii) (acc : N) (cnt : Z)
  : N * Z * list ascii :=
  match cs with
  | c :: rest =>
      if is_digit c
      then take_digits rest (acc * 10 + N.of_nat (nat_of_ascii c - 48))%N (cnt + 1)
      else (acc, cnt, cs)
  | [] => (acc, cnt, [])
  end.

Definition take_sign (cs : list ascii) : bool * list ascii :=
  match cs with
  | "-"%char :: rest => (true, rest)
  | "+"%char :: rest => (false, rest)
  | _ => (false, cs)
  end.

Definition lower (c : ascii) : ascii :=
  let n := nat_of_ascii c in
  if (65 <=? n)%nat && (n <=? 90)%nat then ascii_of_nat (n + 32) else c.

(** [m * 10^e], correctly rounded to a float. *)
Definition float_of_decimal (neg : bool) (m : N) (e : Z) : float :=
  match m with
  | N0 => S754_zero neg
  | Npos p =>
      match e with
      | Zneg k =>
          let '(q, e', l) :=
            SFdiv_core_binary prec emax (Zpos p) 0 (10 ^ Zpos k) 0 in
          binary_round_aux prec emax neg q e' l
      | _ => binary_normalize prec emax (cond_Zopp neg (Zpos p * 10 ^ e)) 0 neg
      end
  end.

(** The optional exponent and the end of the text. *)
Definition parse_exponent (cs : list ascii) : option Z :=
  match cs with
  | [] => Some 0
  | c :: rest =>
      if Ascii.eqb (lower c) "e" then
        let '(neg, rest') := take_sign rest in
        match take_digits rest' 0 0 with
        | (_, 0, _) => None
        | (v, _, []) => Some (cond_Zopp neg (Z.of_N v))
        | _ => None
        end
      else None
  end.

Definition parse_number (neg : bool) (cs : list ascii) : option float :=
  let '(ip, ni, after_int) := take_digits cs 0 0 in
  let '(mant, nf, after_frac) :=
    match after_int with
    | "."%char :: rest => take_digits rest ip 0
    | _ => (ip, 0, after_int)
    end in
  if ni + nf =? 0 then None
  else option_map (fun ex => float_of_decimal neg mant (ex - nf))
                  (parse_exponent after_frac).

(** A text is a [string]: one [ascii] for each character, so the texts of
    the model are those of the code points 0 to 255.  Before [float]
    reads a text that has a character above 127, each character from 127
    on is replaced ([_PyUnicode_TransformDecimalAndSpaceToASCII]): a space
    becomes the ASCII space, a decimal digit the ASCII digit, and at any
    other character the text is cut with a question mark.  Among the code
    points 127 to 255 the spaces are 133 and 160 and there is no decimal
    digit. *)
Definition is_ascii_text (cs : list ascii) : bool :=
  forallb (fun c => (nat_of_ascii c <? 128)%nat) cs.

Fixpoint transform_decimal_and_space (cs : list ascii) : list ascii :=
  match cs with
  | [] => []
  | c :: rest =>
      let n := nat_of_ascii c in
      if (n <? 127)%nat then c :: transform_decimal_and_space rest
      else if (n =? 133)%nat || (n =? 160)%nat
      then " "%char :: transform_decimal_and_space rest
      else ["?"%char]
  end.

(** [float(s)] for a text.  Texts with characters above 255, among them
    the decimal digits and the spaces of other scripts, which Python
    reads as well, are not texts of the model. *)
Definition float_of_string (s : string) : option float :=
  let cs := list_ascii_of_string s in
  let cs := if is_ascii_text cs then cs else transform_decimal_and_space cs in
  match drop_underscores None (strip cs) with
  | None => None
  | Some cs =>
      let '(neg, body) := take_sign cs in
      let word := string_of_list_ascii (map lower body) in
      if (word =? "inf")%string || (word =? "infinity")%string
      then Some (S754_infinity neg)
      else if (word =? "nan")%string then Some S754_nan
      else parse_number neg body
  end.

(** [float(v)] *)
Definition py_float (v : json) : result float :=
  match v with
  | JInt z => float_of_int z
  | JBool b => Ok (if b then f1 else f0)
  | JFloat x => Ok x
  | JString s =>
      match float_of_string s with
      | Some x => Ok x
      | None => Raise (ValueError_float s)
      end
  | JNull | JArray _ | JObject _ => Raise TypeError
  end.

(** [bool(v)], as tested by [if not v]. *)
Definition truthy (v : json) : bool :=
  match v with
  | JNull => false
  | JBool b => b
  | JInt z => negb (z =? 0)
  | JFloat (S754_zero _) => false
  | JFloat _ => true
  | JString s => negb (s =? "")%string
  | JArray l => negb (Nat.eqb (List.length l) 0)
  | JObject kvs => negb (Nat.eqb (List.length kvs) 0)
  end.

(** The values that [for item in v] goes through: the elements of a list,
    the keys of a dict, the characters of a str. *)
Definition py_iter (v : json) : result (list json) :=
  match v with
  | JArray l => Ok l
  | JObject kvs => Ok (map (fun kv => JString (fst kv)) kvs)
  | JString s =>
      Ok (map (fun c => JString (String c "")) (list_ascii_of_string s))
  | _ => Raise TypeError
  end.

End Py.
Export Py.

(** ** The persisted counter *)

(** The file [invoice_counter.json] as the program observes it. *)
Inductive counter_file :=
| Absent                  (* os.path.exists is False *)
| Unreadable              (* the file exists and open() fails *)
| Garbage                 (* the file exists and its text is not JSON *)
| Content (data : json).  (* the file exists and json.load returns data *)

(** Code that reads and writes the counter file and may raise. *)
Definition M (A : Type) : Type := counter_file -> result A * counter_file.

Definition ret {A} (a : A) : M A := fun st => (Ok a, st).

Definition bind {A B} (m : M A) (k : A -> M B) : M B :=
  fun st =>
    match m st with
    | (Ok a, st') => k a st'
    | (Raise e, st') => (Raise e, st')
    end.

Definition lift {A} (r : result A) : M A := fun st => (r, st).

Declare Scope io_scope.
Delimit Scope io_scope with io.
Notation "x <- c ;; k" := (bind c (fun x => k))
  (at level 61, c at next level, right associativity) : io_scope.
Notation "c ;;; k" := (bind c (fun _ => k))
  (at level 61, right associativity) : io_scope.

Definition path_exists : M bool :=
  fun st => (Ok (match st with Absent => false | _ => true end), st).

(** [with open(file, 'r') as f: json.load(f)] *)
Definition json_load : M json :=
  fun st =>
    match st with
    | Content data => (Ok data, st)
    | Garbage => (Raise JSONDecodeError, st)
    | Unreadable => (Raise PermissionError, st)
    | Absent => (Raise FileNotFoundError, st)
    end.

(** [with open(file, 'w') as f: json.dump(data, f)], on a file that can be
    written and for a number that [json.dump] can print: no failure of
    the write is modelled. *)
Definition json_dump (data : json) : M unit :=
  fun _ => (Ok tt, Content data).

Definition get_next_invoice_number : M num :=
  (ex <- path_exists ;;
   invoice_number <-
     (if ex then
        data <- json_load ;;
        last <- lift (dict_get data "last_invoice" (JInt 73)) ;;
        lift (n <- as_num last ;; py_add n (PInt 1))%res
      else ret (PInt 74)) ;;
   json_dump (JObject [("last_invoice", json_of_num invoice_number)]) ;;;
   ret invoice_number)%io.

(** [n] calls in a row; the numbers returned, oldest first. *)
Fixpoint allocate_many (n : nat) : M (list num) :=
  match n with
  | O => ret []
  | S k =>
      (v <- get_next_invoice_number ;;
       vs <- allocate_many k ;;
       ret (v :: vs))%io
  end.

(** ** Dates *)

(** The calendar arithmetic of Python's [datetime]: a date is a year, a
    month and a day of the proleptic Gregorian calendar; adding days goes
    through the ordinal of the date (1 is 0001-01-01). *)
Module Calendar.

Record date := { year : Z; month : Z; day : Z }.

Definition is_leap (y : Z) : bool :=
  (y mod 4 =? 0) && (negb (y mod 100 =? 0) || (y mod 400 =? 0)).

Definition days_before_year (y : Z) : Z :=
  let y := y - 1 in
  y * 365 + y / 4 - y / 100 + y / 400.

Definition DAYS_IN_MONTH (m : Z) : Z :=
  match m with
  | 1 => 31 | 2 => 28 | 3 => 31 | 4 => 30 | 5 => 31 | 6 => 30
  | 7 => 31 | 8 => 31 | 9 => 30 | 10 => 31 | 11 => 30 | 12 => 31
  | _ => -1
  end.

Definition DAYS_BEFORE_MONTH (m : Z) : Z :=
  match m with
  | 1 => 0 | 2 => 31 | 3 => 59 | 4 => 90 | 5 => 120 | 6 => 151
  | 7 => 181 | 8 => 212 | 9 => 243 | 10 => 273 | 11 => 304 | 12 => 334
  | _ => -1
  end.

Definition days_in_month (y m : Z) : Z :=
  if (m =? 2) && is_leap y then 29 else DAYS_IN_MONTH m.

Definition days_before_month (y m : Z) : Z :=
  DAYS_BEFORE_MONTH m + (if (2 <? m) && is_leap y then 1 else 0).

(** [date.toordinal()] *)
Definition ymd2ord (d : date) : Z :=
  days_before_year (year d) + days_before_month (year d) (month d) + day d.

Definition DI400Y : Z := 146097.
Definition DI100Y : Z := 36524.
Definition DI4Y : Z := 1461.
Definition MAXORDINAL : Z := 3652059.

(** [date.fromordinal(n)] *)
Definition ord2ymd (n : Z) : date :=
  let n := n - 1 in
  let n400 := n / DI400Y in
  let n := n mod DI400Y in
  let y := n400 * 400 + 1 in
  let n100 := n / DI100Y in
  let n := n mod DI100Y in
  let n4 := n / DI4Y in
  let n := n mod DI4Y in
  let n1 := n / 365 in
  let n := n mod 365 in
  let y := y + n100 * 100 + n4 * 4 + n1 in
  if (n1 =? 4) || (n100 =? 4) then
    {| year := y - 1; month := 12; day := 31 |}
  else
    let leapyear := (n1 =? 3) && (negb (n4 =? 24) || (n100 =? 3)) in
    let m := Z.shiftr (n + 50) 5 in
    let preceding :=
      DAYS_BEFORE_MONTH m + (if (2 <? m) && leapyear then 1 else 0) in
    if n <? preceding then
      let m := m - 1 in
      let preceding :=
        preceding
        - (DAYS_IN_MONTH m + (if (m =? 2) && leapyear then 1 else 0)) in
      {| year := y; month := m; day := n - preceding + 1 |}
    else
      {| year := y; month := m; day := n - preceding + 1 |}.

(** The dates a [datetime] can hold. *)
Definition valid_date (d : date) : bool :=
  (1 <=? year d) && (year d <=? 9999)
  && (1 <=? month d) && (month d <=? 12)
  && (1 <=? day d) && (day d <=? days_in_month (year d) (month d)).

(** [d + timedelta(days=k)] *)
Definition add_days (d : date) (k : Z) : result date :=
  let o := ymd2ord d + k in
  if (0 <? o) && (o <=? MAXORDINAL) then Ok (ord2ymd o)
  else Raise OverflowError.

(** [d.strftime('%Y-%m-%d')]: the year as the C library prints it, with no
    zeros in front (four digits from the year 1000 on), the month and the
    day on two digits. *)
Definition strftime_ymd (d : date) : string :=
  (str_of_Z (year d) ++ "-" ++ zfill 2 (str_of_Z (month d))
   ++ "-" ++ zfill 2 (str_of_Z (day d)))%string.

(** The day after [d] on the calendar. *)
Definition next_day (d : date) : date :=
  if day d <? days_in_month (year d) (month d) then
    {| year := year d; month := month d; day := day d + 1 |}
  else if month d <? 12 then
    {| year := year d; month := month d + 1; day := 1 |}
  else
    {| year := year d + 1; month := 1; day := 1 |}.

End Calendar.
Export Calendar.

(** ** The handlers *)

(** One entry of [calculated_items] in the reply of [calculate]. *)
Record calc_item := {
  ci_description : json;
  ci_qty : float;
  ci_price : float;
  ci_tax : json;
  ci_line_total : float
}.

(** The loop variables of [calculate]. *)
Record calc_state := {
  cs_subtotal : num;
  cs_total_tax : num;
  cs_items : list calc_item
}.

(** One row of the items table of the document: the description, the
    quantity (shown with [str]), the unit price, the tax entry as
    received (shown followed by a percent sign) and the line total. *)
Record item_row := {
  row_description : json;
  row_qty : float;
  row_unit_price : string;
  row_tax : json;
  row_total : string
}.

(** The loop variables of [generate_invoice]. *)
Record invoice_state := {
  is_subtotal : num;
  is_total_tax : num;
  is_rows : list item_row
}.

(** What [generate_invoice] hands to the document library. *)
Record story := {
  st_invoice_no : string;
  st_invoice_date : string;
  st_due_date : string;
  st_customer : json * json * json;
  st_rows : list item_row;
  st_subtotal : string;
  st_tax : string;
  st_total : string
}.

(** The JSON body of a successful reply of [calculate]. *)
Record calc_body := {
  cb_items : list calc_item;
  cb_subtotal : string;
  cb_tax : string;
  cb_total : string
}.

(** The [error] field of a failure reply: a fixed text or [str(e)]. *)
Inductive error_text :=
| Message (s : string)
| StrOf (e : exn).

(** [for x in xs: st = step st x], stopping at the first exception. *)
Fixpoint for_each {S : Type} (step : S -> json -> result S)
  (xs : list json) (st : S) : result S :=
  match xs with
  | [] => Ok st
  | x :: rest => (st' <- step st x ;; for_each step rest st')%res
  end.

(** The body of the loop of [calculate]. *)
Definition calculate_step (st : calc_state) (item : json) : result calc_state :=
  (q <- dict_get item "qty" (JInt 0) ;;
   qty <- py_float q ;;
   p <- dict_get item "price" (JInt 0) ;;
   price <- py_float p ;;
   t <- dict_get item "tax" (JInt 0) ;;
   tax <- py_float t ;;
   let tax_rate := fdiv tax f100 in
   let line_subtotal := fmul qty price in
   let line_tax := fmul line_subtotal tax_rate in
   let line_total := fadd line_subtotal line_tax in
   subtotal <- py_add (cs_subtotal st) (PFloat line_subtotal) ;;
   total_tax <- py_add (cs_total_tax st) (PFloat line_tax) ;;
   description <- dict_get item "description" (JString "") ;;
   tax_shown <- dict_get item "tax" (JString "0") ;;
   Ok {| cs_subtotal := subtotal;
         cs_total_tax := total_tax;
         cs_items := cs_items st ++
           [{| ci_description := description; ci_qty := qty;
               ci_price := price; ci_tax := tax_shown;
               ci_line_total := line_total |}] |})%res.

Definition calculate_init : calc_state :=
  {| cs_subtotal := PInt 0; cs_total_tax := PInt 0; cs_items := [] |}.

(** The loop of [calculate] with the totals at full precision. *)
Definition calculate_totals (items : json) : result (calc_state * num) :=
  (xs <- py_iter items ;;
   st <- for_each calculate_step xs calculate_init ;;
   grand_total <- py_add (cs_subtotal st) (cs_total_tax st) ;;
   Ok (st, grand_total))%res.

(** The body of the loop of [generate_invoice]. *)
Definition invoice_step (st : invoice_state) (item : json)
  : result invoice_state :=
  (description <- dict_get item "description" (JString "") ;;
   q <- dict_get item "qty" (JInt 0) ;;
   qty <- py_float q ;;
   p <- dict_get item "price" (JInt 0) ;;
   unit_price <- py_float p ;;
   t <- dict_get item "tax" (JInt 0) ;;
   tax <- py_float t ;;
   let tax_rate := fdiv tax f100 in
   let line_subtotal := fmul qty unit_price in
   let line_tax := fmul line_subtotal tax_rate in
   let line_total := fadd line_subtotal line_tax in
   subtotal <- py_add (is_subtotal st) (PFloat line_subtotal) ;;
   total_tax <- py_add (is_total_tax st) (PFloat line_tax) ;;
   tax_shown <- dict_get item "tax" (JString "0") ;;
   Ok {| is_subtotal := subtotal;
         is_total_tax := total_tax;
         is_rows := is_rows st ++
           [{| row_description := description; row_qty := qty;
               row_unit_price := "$" ++ format_2f unit_price;
               row_tax := tax_shown;
               row_total := "$" ++ format_2f line_total |}] |})%res.

Definition invoice_init : invoice_state :=
  {| is_subtotal := PInt 0; is_total_tax := PInt 0; is_rows := [] |}.

(** The loop of [generate_invoice] with the totals at full precision. *)
Definition invoice_totals (items_data : json) : result (invoice_state * num) :=
  (xs <- py_iter items_data ;;
   st <- for_each invoice_step xs invoice_init ;;
   grand_total <- py_add (is_subtotal st) (is_total_tax st) ;;
   Ok (st, grand_total))%res.

Definition default_customer : json :=
  JObject [("name", JString "John Doe");
           ("address", JString "45 Elm Avenue");
           ("city", JString "Gotham, NY 10001")].

(** [f'{n:03d}'] for the number the allocator returned. *)
Definition format_num_03d (n : num) : result string :=
  match n with
  | PInt z => Ok (format_03d z)
  | PFloat _ => Raise ValueError_format
  end.

(** [f'INV-{year}-{number:03d}'] *)
Definition invoice_no_text (y : Z) (number : string) : string :=
  ("INV-" ++ str_of_Z y ++ "-" ++ number)%string.

Section App.

(** The document library, at the two places where it reads texts of the
    request and may raise.  [xpreformatted] is [XPreformatted] on the text
    made of the name, the address and the city of the customer, which it
    parses as markup, before the loop over the items; [build] is
    [doc.build(story)], after it, and [pdf] is what it leaves in the
    buffer.  Neither sees the counter file. *)
Variable pdf : Type.
Variable xpreformatted : json * json * json -> result unit.
Variable build : story -> result pdf.

Inductive response :=
| JsonOk (body : calc_body)                      (* success: True *)
| SendFile (file : pdf) (download_name : string) (* the PDF attachment *)
| JsonError (error : error_text).                (* success: False, 400 *)

(** [try: ... except Exception as e: return jsonify(error=str(e)), 400] *)
Definition handle (body : M response) (st : counter_file)
  : response * counter_file :=
  match body st with
  | (Ok r, st') => (r, st')
  | (Raise e, st') => (JsonError (StrOf e), st')
  end.

(** [now] is the value of [datetime.now()] during the call. *)
Definition generate_invoice (items_data customer_data : json) (now : date)
  : M (pdf * string) :=
  (let customer_data :=
     if truthy customer_data then customer_data else default_customer in
   invoice_number <- get_next_invoice_number ;;
   let today := now in
   due_date <- lift (add_days today 15) ;;
   number <- lift (format_num_03d invoice_number) ;;
   let invoice_no := invoice_no_text (year today) number in
   let invoice_date := strftime_ymd today in
   let due_date_str := strftime_ymd due_date in
   name <- lift (dict_get customer_data "name" (JString "Customer")) ;;
   address <- lift (dict_get customer_data "address" (JString "")) ;;
   city <- lift (dict_get customer_data "city" (JString "")) ;;
   lift (xpreformatted (name, address, city)) ;;;
   totals <- lift (invoice_totals items_data) ;;
   let '(st, grand_total) := totals in
   subtotal_text <- lift (format_num_2f (is_subtotal st)) ;;
   tax_text <- lift (format_num_2f (is_total_tax st)) ;;
   total_text <- lift (format_num_2f grand_total) ;;
   file <- lift (build
     {| st_invoice_no := invoice_no;
        st_invoice_date := invoice_date;
        st_due_date := due_date_str;
        st_customer := (name, address, city);
        st_rows := is_rows st;
        st_subtotal := "$" ++ subtotal_text;
        st_tax := "$" ++ tax_text;
        st_total := "$" ++ total_text |}) ;;
   ret (file, invoice_no))%io.

(** The handler of [POST /calculate]; [request_json] is [request.json]. *)
Definition calculate (request_json : json) : counter_file -> response * counter_file :=
  handle
    (items <- lift (dict_get request_json "items" (JArray [])) ;;
     totals <- lift (calculate_totals items) ;;
     let '(st, grand_total) := totals in
     subtotal_text <- lift (format_num_2f (cs_subtotal st)) ;;
     tax_text <- lift (format_num_2f (cs_total_tax st)) ;;
     total_text <- lift (format_num_2f grand_total) ;;
     ret (JsonOk {| cb_items := cs_items st;
                    cb_subtotal := subtotal_text;
                    cb_tax := tax_text;
                    cb_total := total_text |}))%io.

(** The handler of [POST /download]. *)
Definition download (request_json : json) (now : date)
  : counter_file -> response * counter_file :=
  handle
    (items <- lift (dict_get request_json "items" (JArray [])) ;;
     customer <- lift (dict_get request_json "customer" (JObject [])) ;;
     if negb (truthy items) then
       ret (JsonError (Message "No items provided"))
     else
       r <- generate_invoice items customer now ;;
       ret (SendFile (fst r) (snd r ++ ".pdf")))%io.

End App.

(** ** Reading an identifier back *)

(** A run of decimal digits, at least one. *)
Definition N_of_digits (s : string) : option N :=
  match s with
  | EmptyString => None
  | _ => option_map N.of_uint (NilEmpty.uint_of_string s)
  end.

(** An integer in decimal, with an optional minus sign. *)
Definition int_of_text (s : string) : option Z :=
  match s with
  | String "-" rest => option_map (fun n => - Z.of_N n) (N_of_digits rest)
  | _ => option_map Z.of_N (N_of_digits s)
  end.

(** Modelled from the spec: the program only builds identifiers, it has no
    function that reads one.  The reading follows the format the
    specification gives, [INV-<4-digit year>-<counter>]: the prefix, four
    digits of year, a dash, and the counter as a decimal integer. *)
Definition parse_invoice_no (s : string) : option (Z * Z) :=
  match s with
  | String "I" (String "N" (String "V" (String "-"
      (String a (String b (String c (String d (String "-" counter)))))))) =>
      match N_of_digits (String a (String b (String c (String d "")))),
            int_of_text counter with
      | Some y, Some n => Some (Z.of_N y, n)
      | _, _ => None
      end
  | _ => None
  end.

(** ** Vocabulary of the statements *)

(** The store after a call that allocated [v]. *)
Definition counter_at (v : Z) : counter_file :=
  Content (JObject [("last_invoice", JInt v)]).

(** The integer the store holds as its last number: 73 stands for a store
    that does not exist or has no [last_invoice] entry; [None] when the
    store cannot be read as an integer counter. *)
Definition last_value (st : counter_file) : option Z :=
  match st with
  | Absent => Some 73
  | Content (JObject kvs) =>
      match assoc "last_invoice" kvs with
      | None => Some 73
      | Some (JInt z) => Some z
      | Some (JBool b) => Some (if b then 1 else 0)
      | Some _ => None
      end
  | _ => None
  end.

(** The integers [v + 1, ..., v + n]. *)
Fixpoint run_after (v : Z) (n : nat) : list Z :=
  match n with
  | O => []
  | S k => (v + 1) :: run_after (v + 1) k
  end.

(** A store that exists and is the record the allocator writes. *)
Definition well_formed_store (st : counter_file) : bool :=
  match st with
  | Content (JObject [(k, JInt _)]) => (k =? "last_invoice")%string
  | _ => false
  end.

(** A store that exists and from which no number can be read: its file
    cannot be opened, its text is not JSON, the JSON is not an object, or
    [last_invoice] is not a number. *)
Definition unreadable_counter (st : counter_file) : bool :=
  match st with
  | Absent => false
  | Unreadable | Garbage => true
  | Content (JObject kvs) =>
      match assoc "last_invoice" kvs with
      | Some (JInt _ | JBool _ | JFloat _) | None => false
      | Some _ => true
      end
  | Content _ => true
  end.

(** A handler called [n] times in a row: the replies and the final store. *)
Fixpoint calls {R : Type} (n : nat) (h : counter_file -> R * counter_file)
  (st : counter_file) : list R * counter_file :=
  match n with
  | O => ([], st)
  | S k =>
      let '(r, st') := h st in
      let '(rs, st'') := calls k h st' in
      (r :: rs, st'')
  end.

(** The three numbers of a line item as the loops read them, in the order
    quantity, price, tax percentage. *)
Definition item_amounts (item : json) : result (float * float * float) :=
  (q <- dict_get item "qty" (JInt 0) ;;
   qty <- py_float q ;;
   p <- dict_get item "price" (JInt 0) ;;
   price <- py_float p ;;
   t <- dict_get item "tax" (JInt 0) ;;
   tax <- py_float t ;;
   Ok (qty, price, tax))%res.

Definition line_subtotal (l : float * float * float) : float :=
  let '(qty, price, _) := l in fmul qty price.

Definition line_tax (l : float * float * float) : float :=
  let '(_, _, tax) := l in fmul (line_subtotal l) (fdiv tax f100).

Definition line_total (l : float * float * float) : float :=
  fadd (line_subtotal l) (line_tax l).

(** The sum of a list of floats as Python's [sum] computes it: from the
    int [0], left to right, with no rounding other than that of each
    float addition. *)
Definition py_sum (xs : list float) : num :=
  match xs with
  | [] => PInt 0
  | x :: rest => PFloat (fold_left fadd rest (fadd f0 x))
  end.

(** [a + b] on totals, which are both [0] or both floats. *)
Definition total_of (a b : num) : num :=
  match a, b with
  | PFloat x, PFloat y => PFloat (fadd x y)
  | _, _ => PInt 0
  end.

(** A line item that carries, in one of the three numeric fields, a value
    that [float] does not accept: a text that is not a number, null, a
    list, an object, an integer beyond the range of floats. *)
Definition non_numeric_field (kvs : list (string * json)) (key : string) : bool :=
  match assoc key kvs with
  | Some v => match py_float v with Raise _ => true | Ok _ => false end
  | None => false
  end.

Definition bad_item (item : json) : bool :=
  match item with
  | JObject kvs =>
      non_numeric_field kvs "qty" || non_numeric_field kvs "price"
      || non_numeric_field kvs "tax"
  | _ => false
  end.

Definition all_digits (s : string) : bool :=
  forallb is_digit (list_ascii_of_string s).

(** [k] decimal digits. *)
Definition digits (k : nat) (s : string) : Prop :=
  String.length s = k /\ all_digits s = true.

(** A text of the form YYYY-MM-DD. *)
Definition iso_date_text (s : string) : Prop :=
  exists y m d, s = (y ++ "-" ++ m ++ "-" ++ d)%string
                /\ digits 4 y /\ digits 2 m /\ digits 2 d.

(** The integers [lo, lo + 1, ..., lo + n - 1]. *)
Fixpoint Zrange (lo : Z) (n : nat) : list Z :=
  match n with
  | O => []
  | S k => lo :: Zrange (lo + 1) k
  end.

(** The counter file is there. *)
Definition store_exists (st : counter_file) : bool :=
  match st with
  | Absent => false
  | _ => true
  end.

(** The value found under [key] in an item, or [default]. *)
Definition field (item : json) (key : string) (default : json) : json :=
  match dict_get item key default with
  | Ok v => v
  | Raise _ => default
  end.

(** The entry of the reply of [calculate] for an item with amounts [l]. *)
Definition calc_item_of (xl : json * (float * float * float)) : calc_item :=
  let '(item, l) := xl in
  {| ci_description := field item "description" (JString "");
     ci_qty := fst (fst l);
     ci_price := snd (fst l);
     ci_tax := field item "tax" (JString "0");
     ci_line_total := line_total l |}.

(** The row of the document for an item with amounts [l]. *)
Definition row_of (xl : json * (float * float * float)) : item_row :=
  let '(item, l) := xl in
  {| row_description := field item "description" (JString "");
     row_qty := fst (fst l);
     row_unit_price := "$" ++ format_2f (snd (fst l));
     row_tax := field item "tax" (JString "0");
     row_total := "$" ++ format_2f (line_total l) |}.

(** A customer entry that [generate_invoice] can use: a dict, or a value
    that is replaced by the default customer. *)
Definition customer_usable (c : json) : bool :=
  match c with
  | JObject _ => true
  | _ => negb (truthy c)
  end.

(** [f'{n:.2f}'] for a total, which is the int [0] or a float. *)
Definition show_2f (n : num) : string :=
  match n with
  | PInt _ => "0.00"
  | PFloat x => format_2f x
  end.

(** The month and the day of the day number [n] (from 0) of a year, as
    the last part of [ord2ymd] finds them. *)
Definition month_day (leapyear : bool) (n : Z) : Z * Z :=
  let m := Z.shiftr (n + 50) 5 in
  let preceding :=
    DAYS_BEFORE_MONTH m + (if (2 <? m) && leapyear then 1 else 0) in
  if n <? preceding then
    let m := m - 1 in
    let preceding :=
      preceding - (DAYS_IN_MONTH m + (if (m =? 2) && leapyear then 1 else 0)) in
    (m, n - preceding + 1)
  else (m, n - preceding + 1).

(** [month_day] lands on a day of a month, the right number of days into
    the year. *)
Definition month_day_ok (leapyear : bool) (n : Z) : bool :=
  let '(m, d) := month_day leapyear n in
  (1 <=? m) && (m <=? 12) && (1 <=? d)
  && (d <=? DAYS_IN_MONTH m + (if (m =? 2) && leapyear then 1 else 0))
  && (DAYS_BEFORE_MONTH m + (if (2 <? m) && leapyear then 1 else 0) + d =? n + 1).

(** The number of the day [d] in its year, from 1. *)
Definition day_of_year (d : date) : Z :=
  days_before_month (year d) (month d) + day d.

(** [s] is [k] decimal digits, as a test. *)
Definition digits_b (k : nat) (s : string) : bool :=
  Nat.eqb (String.length s) k && all_digits s.

(** [v] is a dict. *)
Definition is_object (v : json) : bool :=
  match v with
  | JObject _ => true
  | _ => false
  end.

(** The file a call leaves after it returned [n]. *)
Definition written (n : num) : counter_file :=
  Content (JObject [("last_invoice", json_of_num n)]).

(** [None], a bool or a number: values a [for] loop cannot go through. *)
Definition is_scalar (v : json) : bool :=
  match v with
  | JNull | JBool _ | JInt _ | JFloat _ => true
  | _ => false
  end.

(** A text or a dict: a [for] loop goes through characters or keys. *)
Definition is_keyed (v : json) : bool :=
  match v with
  | JString _ | JObject _ => true
  | _ => false
  end.

(** A line item that is a dict with none of the three amounts. *)
Definition no_amounts (item : json) : bool :=
  match item with
  | JObject kvs =>
      match assoc "qty" kvs, assoc "price" kvs, assoc "tax" kvs with
      | None, None, None => true
      | _, _, _ => false
      end
  | _ => false
  end.

(** The reply of [calculate] when the loop runs over nothing. *)
Definition zero_totals : calc_body :=
  {| cb_items := []; cb_subtotal := "0.00"; cb_tax := "0.00";
     cb_total := "0.00" |}.

(** The name, the address and the city that [generate_invoice] takes from
    the customer entry, with the placeholder customer for an entry that
    counts as false. *)
Definition customer_fields (customer : json) : json * json * json :=
  let c := if truthy customer then customer else default_customer in
  (field c "name" (JString "Customer"),
   field c "address" (JString ""),
   field c "city" (JString "")).

(** The date written as YYYY-MM-DD in [s]: four digits, a dash, two
    digits, a dash, two digits, read as year, month and day. *)
Definition parse_iso_date (s : string) : option date :=
  match s with
  | String y1 (String y2 (String y3 (String y4 (String "-"
      (String m1 (String m2 (String "-" (String d1 (String d2 "")))))))))
    =>
      match N_of_digits (String y1 (String y2 (String y3 (String y4 "")))),
            N_of_digits (String m1 (String m2 "")),
            N_of_digits (String d1 (String d2 "")) with
      | Some y, Some m, Some d =>
          Some {| year := Z.of_N y; month := Z.of_N m; day := Z.of_N d |}
      | _, _, _ => None
      end
  | _ => None
  end.

(** * Properties *)

(** ** The allocator *)

Lemma allocate_from_absent :
  get_next_invoice_number Absent = (Ok (PInt 74), counter_at 74).
Proof. reflexivity. Qed.

Lemma allocate_from_counter (v : Z) :
  get_next_invoice_number (counter_at v) = (Ok (PInt (v + 1)), counter_at (v + 1)).
Proof. reflexivity. Qed.

(** One call on a store that holds the integer [v0] (or none, read as 73). *)
Lemma allocate_integer_store (st : counter_file) (v0 : Z) :
  last_value st = Some v0 ->
  get_next_invoice_number st = (Ok (PInt (v0 + 1)), counter_at (v0 + 1)).
Proof.
  destruct st as [ | | | data]; simpl; try discriminate.
  - intros [= <-]. reflexivity.
  - destruct data as [ | | | | | | kvs]; try discriminate.
    unfold get_next_invoice_number, bind, path_exists, json_load, lift; simpl.
    destruct (assoc "last_invoice" kvs) as [[ | b | z | | | | ] | ];
      try discriminate; intros [= <-]; reflexivity.
Qed.

Lemma last_value_counter_at (v : Z) : last_value (counter_at v) = Some v.
Proof. reflexivity. Qed.

Lemma allocate_many_counter (n : nat) : forall v,
  allocate_many n (counter_at v)
  = (Ok (map PInt (run_after v n)), counter_at (v + Z.of_nat n)).
Proof.
  induction n as [ | k IH]; intros v.
  - simpl. unfold ret. now rewrite Z.add_0_r.
  - cbn [allocate_many run_after map]. unfold bind at 1.
    rewrite allocate_from_counter. unfold bind at 1. rewrite IH.
    unfold ret. do 2 f_equal. lia.
Qed.

Lemma allocate_many_integer_store (n : nat) (st : counter_file) (v0 : Z) :
  last_value st = Some v0 ->
  fst (allocate_many n st) = Ok (map PInt (run_after v0 n)).
Proof.
  intros Hst. destruct n as [ | k]; [reflexivity | ].
  cbn [allocate_many run_after map]. unfold bind at 1.
  rewrite (allocate_integer_store _ _ Hst). unfold bind at 1.
  now rewrite allocate_many_counter.
Qed.

Lemma run_after_lower (n : nat) : forall v, Forall (fun z => v < z) (run_after v n).
Proof.
  induction n as [ | k IH]; intros v; simpl; constructor; [lia | ].
  eapply Forall_impl; [ | apply IH]. simpl. lia.
Qed.

Lemma run_after_sorted (n : nat) : forall v, StronglySorted Z.lt (run_after v n).
Proof.
  induction n as [ | k IH]; intros v; simpl; constructor; auto using run_after_lower.
Qed.

Lemma run_after_nodup (n : nat) : forall v, NoDup (run_after v n).
Proof.
  induction n as [ | k IH]; intros v; simpl; constructor; auto.
  intros Hin. pose proof (run_after_lower k (v + 1)) as H.
  rewrite Forall_forall in H. specialize (H _ Hin). lia.
Qed.

Lemma run_after_seq (n : nat) : forall v,
  run_after v n = map (fun k => v + 1 + Z.of_nat k) (seq 0 n).
Proof.
  induction n as [ | k IH]; intros v; [reflexivity | ].
  cbn [run_after seq map]. f_equal; [lia | ].
  rewrite IH, <- seq_shift, map_map. apply map_ext. intros a. lia.
Qed.

(** C1: from a store with no persisted state the first call returns 74 and
    persists it; a call on a store that holds [v] returns [v + 1] and
    persists it; so [n] calls in a row from a fresh store return
    74, 75, ..., 73 + n. *)
Theorem fresh_store_sequence :
  get_next_invoice_number Absent = (Ok (PInt 74), counter_at 74)
  /\ (forall v, get_next_invoice_number (counter_at v)
                = (Ok (PInt (v + 1)), counter_at (v + 1)))
  /\ (forall n, fst (allocate_many n Absent)
                = Ok (map (fun k => PInt (74 + Z.of_nat k)) (seq 0 n)))
  /\ (forall n, snd (allocate_many (S n) Absent) = counter_at (74 + Z.of_nat n)).
Proof.
  split; [reflexivity | split; [exact allocate_from_counter | split]].
  - intros n. rewrite (allocate_many_integer_store n Absent 73 eq_refl).
    rewrite run_after_seq, map_map. reflexivity.
  - intros n. cbn [allocate_many]. unfold bind at 1.
    rewrite allocate_from_absent. unfold bind at 1.
    rewrite allocate_many_counter. reflexivity.
Qed.

(** A counter file whose [last_invoice] is the float 9007199254740992.0,
    two to the power 53: adding one gives the same float back, so every
    call returns the number of the call before and writes the file it
    read. *)
Lemma repeated_number_counterexample :
  let x := S754_finite false 4503599627370496 1 in
  let st := Content (JObject [("last_invoice", JFloat x)]) in
  get_next_invoice_number st = (Ok (PFloat x), st)
  /\ allocate_many 3 st = (Ok [PFloat x; PFloat x; PFloat x], st).
Proof. now vm_compute. Qed.

(** C8, amended: on a store whose counter is an integer (or that does not
    exist, or has no entry), every allocation returns the number it has
    just persisted, and the numbers returned by calls made one after the
    other are strictly increasing, above the number the store held, and
    pairwise distinct. *)
Theorem counter_strictly_increasing (st : counter_file) (v0 : Z) (n : nat) :
  last_value st = Some v0 ->
  (exists v, get_next_invoice_number st = (Ok (PInt v), counter_at v)
             /\ v0 < v /\ last_value (counter_at v) = Some v)
  /\ (exists zs, fst (allocate_many n st) = Ok (map PInt zs)
                 /\ StronglySorted Z.lt zs
                 /\ NoDup zs
                 /\ Forall (fun z => v0 < z) zs).
Proof.
  intros Hst. split.
  - exists (v0 + 1). rewrite (allocate_integer_store _ _ Hst).
    split; [reflexivity | split; [lia | reflexivity]].
  - exists (run_after v0 n).
    rewrite (allocate_many_integer_store n _ _ Hst).
    auto using run_after_sorted, run_after_nodup, run_after_lower.
Qed.

Lemma counter_strictly_increasing_witness :
  last_value (Content (JObject [("last_invoice", JInt 80)])) = Some 80
  /\ exists zs,
       fst (allocate_many 3 (Content (JObject [("last_invoice", JInt 80)])))
       = Ok (map PInt zs)
       /\ StronglySorted Z.lt zs /\ NoDup zs /\ Forall (fun z => 80 < z) zs.
Proof.
  split; [reflexivity | ].
  exact (proj2 (counter_strictly_increasing
                  (Content (JObject [("last_invoice", JInt 80)])) 80 3 eq_refl)).
Defined.

(** A counter file that exists and has lost its [last_invoice] entry is
    not refused: the call answers 74, as on a file that does not exist,
    and the sequence starts again. *)
Lemma corrupt_store_counterexample :
  let st := Content (JObject [("last", JInt 120)]) in
  store_exists st = true
  /\ well_formed_store st = false
  /\ get_next_invoice_number st = (Ok (PInt 74), counter_at 74)
  /\ get_next_invoice_number st = get_next_invoice_number Absent.
Proof. repeat split. Qed.

(** C6, amended: when the counter file exists and cannot be opened, is not
    JSON, is not a JSON object, or holds a [last_invoice] that is not a
    number, the allocator raises, returns no number and leaves the file as
    it was; a JSON object with no [last_invoice] entry is read as 73, so the
    call returns the seed 74 and persists it. *)
Theorem damaged_store_outcome (st : counter_file) :
  store_exists st = true ->
  (unreadable_counter st = true ->
   exists e, get_next_invoice_number st = (Raise e, st))
  /\ (forall kvs, st = Content (JObject kvs) ->
      assoc "last_invoice" kvs = None ->
      get_next_invoice_number st = (Ok (PInt 74), counter_at 74)).
Proof.
  intros _. split.
  - destruct st as [ | | | data]; simpl; try discriminate; intros H.
    + now exists PermissionError.
    + now exists JSONDecodeError.
    + unfold get_next_invoice_number, bind, path_exists, json_load, lift; simpl.
      destruct data as [ | | | | | | kvs]; try (now exists AttributeError).
      simpl. destruct (assoc "last_invoice" kvs) as [[ | | | | | | ] | ];
        try discriminate; now exists TypeError.
  - intros kvs -> Hkey.
    unfold get_next_invoice_number, bind, path_exists, json_load, lift; simpl.
    now rewrite Hkey.
Qed.

Lemma damaged_store_outcome_witness :
  store_exists Garbage = true
  /\ exists e, get_next_invoice_number Garbage = (Raise e, Garbage).
Proof.
  split; [reflexivity | ].
  exact (proj1 (damaged_store_outcome Garbage eq_refl) eq_refl).
Defined.

(** ** The handlers *)

Section Handlers.

Variable pdf : Type.
Variable xpreformatted : json * json * json -> result unit.
Variable build : story -> result pdf.

Lemma bind_lift {A B} (r : result A) (k : A -> M B) (st : counter_file) :
  bind (lift r) k st
  = match r with Ok a => k a st | Raise e => (Raise e, st) end.
Proof. unfold bind, lift. now destruct r. Qed.

Lemma dict_get_object (d : json) (key : string) (default v : json) :
  dict_get d key default = Ok v -> exists kvs, d = JObject kvs.
Proof. destruct d; try discriminate. eauto. Qed.

Lemma dict_get_total (kvs : list (string * json)) (key : string) (default : json) :
  exists v, dict_get (JObject kvs) key default = Ok v.
Proof. simpl. destruct (assoc key kvs); eauto. Qed.

(** [calculate] gives the same reply on every store and hands the store
    back as it got it. *)
Lemma calculate_pure (request : json) (st st' : counter_file) :
  calculate pdf request st = (fst (calculate pdf request st'), st).
Proof.
  unfold calculate, handle. rewrite !bind_lift.
  destruct (dict_get request "items" (JArray [])) as [items | e]; [ | reflexivity].
  rewrite !bind_lift.
  destruct (calculate_totals items) as [[cs g] | e]; [ | reflexivity].
  rewrite !bind_lift.
  destruct (format_num_2f (cs_subtotal cs)); [ | reflexivity]. rewrite !bind_lift.
  destruct (format_num_2f (cs_total_tax cs)); [ | reflexivity]. rewrite !bind_lift.
  destruct (format_num_2f g); reflexivity.
Qed.

Lemma calls_pure {R : Type} (h : counter_file -> R * counter_file) (r : R)
  (st : counter_file) (n : nat) :
  h st = (r, st) -> calls n h st = (repeat r n, st).
Proof.
  intros Hh. induction n as [ | k IH]; [reflexivity | ].
  cbn [calls repeat]. now rewrite Hh, IH.
Qed.

(** C5: the preview handler never touches the counter file and its reply
    depends on the request alone: called on any store it leaves the store
    as it was, it replies the same whatever the store holds, and any
    number of calls in a row give that same reply each time and the
    initial store at the end. *)
Theorem calculate_preserves_counter (request : json) (st st' : counter_file)
  (n : nat) :
  snd (calculate pdf request st) = st
  /\ fst (calculate pdf request st) = fst (calculate pdf request st')
  /\ calls n (calculate pdf request) st
     = (repeat (fst (calculate pdf request st)) n, st).
Proof.
  split; [ | split].
  - now rewrite (calculate_pure request st st).
  - now rewrite (calculate_pure request st st').
  - apply calls_pure. apply calculate_pure.
Qed.

(** C4: on a request whose item list is empty, the preview handler replies
    success with no items and the totals 0.00, 0.00 and 0.00, and the
    download handler replies the failure "No items provided"; neither
    touches the counter file. *)
Theorem empty_item_list (request : json) (now : date) (st : counter_file) :
  dict_get request "items" (JArray []) = Ok (JArray []) ->
  calculate pdf request st
  = (JsonOk pdf {| cb_items := []; cb_subtotal := "0.00";
                   cb_tax := "0.00"; cb_total := "0.00" |}, st)
  /\ download pdf xpreformatted build request now st
     = (JsonError pdf (Message "No items provided"), st).
Proof.
  intros Hitems. split.
  - unfold calculate, handle. rewrite bind_lift, Hitems. reflexivity.
  - unfold download, handle. rewrite bind_lift, Hitems.
    destruct (dict_get_object _ _ _ _ Hitems) as [kvs ->].
    destruct (dict_get_total kvs "customer" (JObject [])) as [c Hc].
    rewrite bind_lift, Hc. reflexivity.
Qed.

End Handlers.

Lemma empty_item_list_witness :
  dict_get (JObject [("items", JArray [])]) "items" (JArray []) = Ok (JArray [])
  /\ calculate story (JObject [("items", JArray [])]) Absent
     = (JsonOk story {| cb_items := []; cb_subtotal := "0.00";
                        cb_tax := "0.00"; cb_total := "0.00" |}, Absent).
Proof.
  split; [reflexivity | ].
  exact (proj1 (empty_item_list story (fun _ => Ok tt) (fun s => Ok s)
                  (JObject [("items", JArray [])])
                  {| year := 2025; month := 6; day := 1 |} Absent eq_refl)).
Defined.

(** ** The loops over the items *)

Lemma py_add_sum (xs : list float) (x : float) :
  py_add (py_sum xs) (PFloat x) = Ok (py_sum (xs ++ [x])).
Proof.
  destruct xs as [ | y rest]; [reflexivity | ].
  simpl. now rewrite fold_left_app.
Qed.

Lemma py_add_totals (xs ys : list float) :
  List.length xs = List.length ys ->
  py_add (py_sum xs) (py_sum ys) = Ok (total_of (py_sum xs) (py_sum ys)).
Proof. destruct xs, ys; try discriminate; reflexivity. Qed.

Lemma item_amounts_object (item : json) (l : float * float * float) :
  item_amounts item = Ok l -> exists kvs, item = JObject kvs.
Proof. destruct item; try discriminate. eauto. Qed.

Lemma dict_get_field (kvs : list (string * json)) (key : string) (default : json) :
  dict_get (JObject kvs) key default = Ok (field (JObject kvs) key default).
Proof. unfold field. simpl. now destruct (assoc key kvs). Qed.

Lemma calculate_step_amounts (st : calc_state) (item : json) :
  calculate_step st item
  = (l <- item_amounts item ;;
     subtotal <- py_add (cs_subtotal st) (PFloat (line_subtotal l)) ;;
     total_tax <- py_add (cs_total_tax st) (PFloat (line_tax l)) ;;
     description <- dict_get item "description" (JString "") ;;
     tax_shown <- dict_get item "tax" (JString "0") ;;
     Ok {| cs_subtotal := subtotal;
           cs_total_tax := total_tax;
           cs_items := cs_items st ++
             [{| ci_description := description; ci_qty := fst (fst l);
                 ci_price := snd (fst l); ci_tax := tax_shown;
                 ci_line_total := line_total l |}] |})%res.
Proof.
  unfold calculate_step, item_amounts.
  destruct (dict_get item "qty" (JInt 0)) as [q | ]; [simpl | reflexivity].
  destruct (py_float q); [simpl | reflexivity].
  destruct (dict_get item "price" (JInt 0)) as [p | ]; [simpl | reflexivity].
  destruct (py_float p); [simpl | reflexivity].
  destruct (dict_get item "tax" (JInt 0)) as [t | ]; [simpl | reflexivity].
  destruct (py_float t); reflexivity.
Qed.

Lemma invoice_step_amounts (st : invoice_state) (item : json) :
  invoice_step st item
  = (description <- dict_get item "description" (JString "") ;;
     l <- item_amounts item ;;
     subtotal <- py_add (is_subtotal st) (PFloat (line_subtotal l)) ;;
     total_tax <- py_add (is_total_tax st) (PFloat (line_tax l)) ;;
     tax_shown <- dict_get item "tax" (JString "0") ;;
     Ok {| is_subtotal := subtotal;
           is_total_tax := total_tax;
           is_rows := is_rows st ++
             [{| row_description := description; row_qty := fst (fst l);
                 row_unit_price := "$" ++ format_2f (snd (fst l));
                 row_tax := tax_shown;
                 row_total := "$" ++ format_2f (line_total l) |}] |})%res.
Proof.
  unfold invoice_step, item_amounts.
  destruct (dict_get item "description" (JString "")); [simpl | reflexivity].
  destruct (dict_get item "qty" (JInt 0)) as [q | ]; [simpl | reflexivity].
  destruct (py_float q); [simpl | reflexivity].
  destruct (dict_get item "price" (JInt 0)) as [p | ]; [simpl | reflexivity].
  destruct (py_float p); [simpl | reflexivity].
  destruct (dict_get item "tax" (JInt 0)) as [t | ]; [simpl | reflexivity].
  destruct (py_float t); reflexivity.
Qed.

Lemma calculate_step_ok (st : calc_state) (item : json)
  (l : float * float * float) (subs taxes : list float) :
  item_amounts item = Ok l ->
  cs_subtotal st = py_sum subs ->
  cs_total_tax st = py_sum taxes ->
  calculate_step st item
  = Ok {| cs_subtotal := py_sum (subs ++ [line_subtotal l]);
          cs_total_tax := py_sum (taxes ++ [line_tax l]);
          cs_items := cs_items st ++ [calc_item_of (item, l)] |}.
Proof.
  intros Hl Hs Ht. rewrite calculate_step_amounts, Hl, Hs, Ht. simpl rbind.
  rewrite !py_add_sum. simpl rbind.
  destruct (item_amounts_object _ _ Hl) as [kvs ->].
  now rewrite !dict_get_field.
Qed.

Lemma invoice_step_ok (st : invoice_state) (item : json)
  (l : float * float * float) (subs taxes : list float) :
  item_amounts item = Ok l ->
  is_subtotal st = py_sum subs ->
  is_total_tax st = py_sum taxes ->
  invoice_step st item
  = Ok {| is_subtotal := py_sum (subs ++ [line_subtotal l]);
          is_total_tax := py_sum (taxes ++ [line_tax l]);
          is_rows := is_rows st ++ [row_of (item, l)] |}.
Proof.
  intros Hl Hs Ht. rewrite invoice_step_amounts.
  destruct (item_amounts_object _ _ Hl) as [kvs ->].
  rewrite !dict_get_field. simpl rbind. rewrite Hl, Hs, Ht. simpl rbind.
  rewrite !py_add_sum. reflexivity.
Qed.

Lemma calculate_loop (xs : list json) (ls : list (float * float * float)) :
  Forall2 (fun x l => item_amounts x = Ok l) xs ls ->
  forall (subs taxes : list float) (done : list calc_item),
    for_each calculate_step xs
      {| cs_subtotal := py_sum subs; cs_total_tax := py_sum taxes;
         cs_items := done |}
    = Ok {| cs_subtotal := py_sum (subs ++ map line_subtotal ls);
            cs_total_tax := py_sum (taxes ++ map line_tax ls);
            cs_items := done ++ map calc_item_of (combine xs ls) |}.
Proof.
  induction 1 as [ | x l xs ls Hx _ IH]; intros subs taxes done.
  - simpl. now rewrite !app_nil_r.
  - cbn [for_each]. erewrite (calculate_step_ok _ x l subs taxes Hx) by reflexivity.
    cbn [rbind cs_items]. rewrite IH. cbn [map combine].
    now rewrite <- !app_assoc.
Qed.

Lemma invoice_loop (xs : list json) (ls : list (float * float * float)) :
  Forall2 (fun x l => item_amounts x = Ok l) xs ls ->
  forall (subs taxes : list float) (done : list item_row),
    for_each invoice_step xs
      {| is_subtotal := py_sum subs; is_total_tax := py_sum taxes;
         is_rows := done |}
    = Ok {| is_subtotal := py_sum (subs ++ map line_subtotal ls);
            is_total_tax := py_sum (taxes ++ map line_tax ls);
            is_rows := done ++ map row_of (combine xs ls) |}.
Proof.
  induction 1 as [ | x l xs ls Hx _ IH]; intros subs taxes done.
  - simpl. now rewrite !app_nil_r.
  - cbn [for_each]. erewrite (invoice_step_ok _ x l subs taxes Hx) by reflexivity.
    cbn [rbind is_rows]. rewrite IH. cbn [map combine].
    now rewrite <- !app_assoc.
Qed.

Lemma calculate_totals_ok (xs : list json) (ls : list (float * float * float)) :
  Forall2 (fun x l => item_amounts x = Ok l) xs ls ->
  calculate_totals (JArray xs)
  = Ok ({| cs_subtotal := py_sum (map line_subtotal ls);
           cs_total_tax := py_sum (map line_tax ls);
           cs_items := map calc_item_of (combine xs ls) |},
        total_of (py_sum (map line_subtotal ls)) (py_sum (map line_tax ls))).
Proof.
  intros H. unfold calculate_totals, calculate_init. cbn [py_iter rbind].
  change (PInt 0) with (py_sum []).
  rewrite (calculate_loop xs ls H [] [] []). cbn [rbind app cs_subtotal cs_total_tax].
  rewrite py_add_totals by now rewrite !length_map. reflexivity.
Qed.

Lemma invoice_totals_ok (xs : list json) (ls : list (float * float * float)) :
  Forall2 (fun x l => item_amounts x = Ok l) xs ls ->
  invoice_totals (JArray xs)
  = Ok ({| is_subtotal := py_sum (map line_subtotal ls);
           is_total_tax := py_sum (map line_tax ls);
           is_rows := map row_of (combine xs ls) |},
        total_of (py_sum (map line_subtotal ls)) (py_sum (map line_tax ls))).
Proof.
  intros H. unfold invoice_totals, invoice_init. cbn [py_iter rbind].
  change (PInt 0) with (py_sum []).
  rewrite (invoice_loop xs ls H [] [] []). cbn [rbind app is_subtotal is_total_tax].
  rewrite py_add_totals by now rewrite !length_map. reflexivity.
Qed.

Lemma format_sum (xs : list float) :
  format_num_2f (py_sum xs) = Ok (show_2f (py_sum xs)).
Proof. now destruct xs. Qed.

Lemma format_total (xs ys : list float) :
  format_num_2f (total_of (py_sum xs) (py_sum ys))
  = Ok (show_2f (total_of (py_sum xs) (py_sum ys))).
Proof. now destruct xs, ys. Qed.

(** C3: for every list of items whose amounts can be read, both loops go
    through the items in order and keep one entry per item, in the same
    order; the total of a line is [qty * price + qty * price * (tax / 100)];
    the subtotal is the sum of the unrounded [qty * price], the tax the sum
    of the unrounded line taxes, and the grand total is subtotal plus
    tax. *)
Theorem totals_are_sums (xs : list json) (ls : list (float * float * float)) :
  Forall2 (fun x l => item_amounts x = Ok l) xs ls ->
  exists (cs : calc_state) (inv : invoice_state) (g : num),
    calculate_totals (JArray xs) = Ok (cs, g)
    /\ invoice_totals (JArray xs) = Ok (inv, g)
    /\ cs_items cs = map calc_item_of (combine xs ls)
    /\ is_rows inv = map row_of (combine xs ls)
    /\ map ci_line_total (cs_items cs)
       = map (fun '(qty, price, tax) =>
                fadd (fmul qty price) (fmul (fmul qty price) (fdiv tax f100))) ls
    /\ cs_subtotal cs = py_sum (map (fun '(qty, price, _) => fmul qty price) ls)
    /\ cs_total_tax cs
       = py_sum (map (fun '(qty, price, tax) =>
                        fmul (fmul qty price) (fdiv tax f100)) ls)
    /\ is_subtotal inv = cs_subtotal cs
    /\ is_total_tax inv = cs_total_tax cs
    /\ py_add (cs_subtotal cs) (cs_total_tax cs) = Ok g.
Proof.
  intros H. do 3 eexists.
  split; [apply (calculate_totals_ok xs ls H) | ].
  split; [apply (invoice_totals_ok xs ls H) | ].
  cbn [cs_items is_rows cs_subtotal cs_total_tax is_subtotal is_total_tax].
  split; [reflexivity | split; [reflexivity | ]].
  split; [ | split; [ | split; [ | split; [reflexivity | split; [reflexivity | ]]]]].
  - rewrite map_map.
    induction H as [ | x [[q p] t] xs ls _ _ IH]; [reflexivity | ].
    cbn [combine map]. f_equal. apply IH.
  - reflexivity.
  - f_equal. apply map_ext. now intros [[q p] t].
  - apply py_add_totals. now rewrite !length_map.
Qed.

Lemma totals_are_sums_witness :
  let widget := JObject [("description", JString "Widget"); ("qty", JInt 2);
                         ("price", JString "10.00"); ("tax", JInt 10)] in
  exists (cs : calc_state) (g : num),
    calculate_totals (JArray [widget]) = Ok (cs, g)
    /\ show_2f (cs_subtotal cs) = "20.00"
    /\ show_2f (cs_total_tax cs) = "2.00"
    /\ show_2f g = "22.00".
Proof.
  intros widget.
  destruct (totals_are_sums [widget]
              [(S754_finite false 4503599627370496 (-51),
                S754_finite false 5629499534213120 (-49),
                S754_finite false 5629499534213120 (-49))])
    as (cs & inv & g & Hc & _ & _ & _ & _ & Hs & Ht & _ & _ & Hg).
  - repeat constructor.
  - exists cs, g. split; [exact Hc | ].
    rewrite Hs, Ht in Hg. rewrite Hs, Ht.
    split; [reflexivity | split; [reflexivity | ]].
    injection Hg as <-. reflexivity.
Defined.

(** ** Generating an invoice *)

Lemma non_numeric_field_raises (kvs : list (string * json)) (key : string)
  (default : json) :
  non_numeric_field kvs key = true ->
  exists v e, dict_get (JObject kvs) key default = Ok v /\ py_float v = Raise e.
Proof.
  unfold non_numeric_field. simpl.
  destruct (assoc key kvs) as [v | ]; [ | discriminate].
  destruct (py_float v) as [x | e] eqn:Hv; [discriminate | ]. intros _.
  now exists v, e.
Qed.

Lemma bad_item_amounts (item : json) :
  bad_item item = true -> exists e, item_amounts item = Raise e.
Proof.
  destruct item as [ | | | | | | kvs]; try discriminate.
  unfold bad_item, item_amounts. intros H.
  destruct (dict_get_total kvs "qty" (JInt 0)) as [q Hq]. rewrite Hq. cbn [rbind].
  destruct (py_float q) eqn:Hfq; [cbn [rbind] | simpl; eauto].
  destruct (dict_get_total kvs "price" (JInt 0)) as [p Hp]. rewrite Hp. cbn [rbind].
  destruct (py_float p) eqn:Hfp; [cbn [rbind] | simpl; eauto].
  destruct (dict_get_total kvs "tax" (JInt 0)) as [t Ht]. rewrite Ht. cbn [rbind].
  destruct (py_float t) eqn:Hft; [exfalso | simpl; eauto].
  apply orb_prop in H. destruct H as [H | H]; [apply orb_prop in H; destruct H as [H | H] | ];
    destruct (non_numeric_field_raises kvs _ (JInt 0) H) as (v & e & Hv & He);
    congruence.
Qed.

Lemma bad_item_step (item : json) (st : invoice_state) :
  bad_item item = true -> exists e, invoice_step st item = Raise e.
Proof.
  intros H. destruct (bad_item_amounts item H) as [e He].
  rewrite invoice_step_amounts.
  destruct (dict_get item "description" (JString "")); [ | simpl; eauto].
  cbn [rbind]. rewrite He. simpl; eauto.
Qed.

Lemma bad_item_loop (xs : list json) :
  existsb bad_item xs = true ->
  forall st, exists e, for_each invoice_step xs st = Raise e.
Proof.
  induction xs as [ | x xs IH]; [discriminate | ].
  cbn [existsb for_each]. intros H st.
  destruct (invoice_step st x) as [st' | e] eqn:Hx; [cbn [rbind] | simpl; eauto].
  apply orb_prop in H. destruct H as [H | H].
  - destruct (bad_item_step x st H) as [e He]. congruence.
  - apply IH, H.
Qed.

Lemma bad_item_totals (xs : list json) :
  existsb bad_item xs = true -> exists e, invoice_totals (JArray xs) = Raise e.
Proof.
  intros H. unfold invoice_totals. cbn [py_iter rbind].
  destruct (bad_item_loop xs H invoice_init) as [e ->]. simpl. eauto.
Qed.

Lemma usable_customer (c : json) :
  customer_usable c = true ->
  exists kvs, (if truthy c then c else default_customer) = JObject kvs.
Proof.
  destruct c; simpl; intros H; try (apply negb_true_iff in H; simpl in H; rewrite H);
    try (unfold default_customer; eauto; fail).
  destruct (negb _); unfold default_customer; eauto.
Qed.

Section Generation.

Variable pdf : Type.
Variable xpreformatted : json * json * json -> result unit.
Variable build : story -> result pdf.

(** Once a number has been allocated, a failure of the item loop leaves
    the store as the allocator wrote it. *)
Lemma generate_invoice_raises (items customer : json) (now : date)
  (st : counter_file) (v0 : Z) (e : exn) :
  last_value st = Some v0 ->
  invoice_totals items = Raise e ->
  exists e', generate_invoice pdf xpreformatted build items customer now st
             = (Raise e', counter_at (v0 + 1)).
Proof.
  intros Hst Htot. unfold generate_invoice. unfold bind at 1.
  rewrite (allocate_integer_store _ _ Hst).
  rewrite bind_lift. destruct (add_days now 15); [ | eauto].
  rewrite bind_lift. cbn [format_num_03d].
  rewrite bind_lift. destruct (dict_get _ "name" _); [ | eauto].
  rewrite bind_lift. destruct (dict_get _ "address" _); [ | eauto].
  rewrite bind_lift. destruct (dict_get _ "city" _); [ | eauto].
  rewrite bind_lift. destruct (xpreformatted _); [ | eauto].
  rewrite bind_lift, Htot. eauto.
Qed.

(** With a usable customer whose text the library accepts and a due date
    in range, the failure reported is the one of the item loop. *)
Lemma generate_invoice_raises_loop (items customer : json) (now due : date)
  (st : counter_file) (v0 : Z) (e : exn) :
  last_value st = Some v0 ->
  customer_usable customer = true ->
  xpreformatted (customer_fields customer) = Ok tt ->
  add_days now 15 = Ok due ->
  invoice_totals items = Raise e ->
  generate_invoice pdf xpreformatted build items customer now st
  = (Raise e, counter_at (v0 + 1)).
Proof.
  intros Hst Hc Hx Hdue Htot. unfold generate_invoice. unfold bind at 1.
  rewrite (allocate_integer_store _ _ Hst).
  rewrite bind_lift, Hdue. rewrite bind_lift. cbn [format_num_03d].
  unfold customer_fields in Hx. cbv zeta in Hx.
  destruct (usable_customer customer Hc) as [kvs Hk]. rewrite Hk in *.
  rewrite bind_lift, dict_get_field. rewrite bind_lift, dict_get_field.
  rewrite bind_lift, dict_get_field. rewrite bind_lift, Hx.
  now rewrite bind_lift, Htot.
Qed.

(** What a successful generation did. *)
Lemma generate_invoice_inv (items customer : json) (now : date)
  (st st' : counter_file) (file : pdf) (id : string) :
  generate_invoice pdf xpreformatted build items customer now st = (Ok (file, id), st') ->
  exists (c : Z) (due : date) (inv : invoice_state) (g : num) (s : story),
    get_next_invoice_number st = (Ok (PInt c), st')
    /\ add_days now 15 = Ok due
    /\ invoice_totals items = Ok (inv, g)
    /\ build s = Ok file
    /\ id = invoice_no_text (year now) (format_03d c)
    /\ st_invoice_no s = id
    /\ st_invoice_date s = strftime_ymd now
    /\ st_due_date s = strftime_ymd due
    /\ st_rows s = is_rows inv.
Proof.
  unfold generate_invoice. unfold bind at 1.
  destruct (get_next_invoice_number st) as [[n | e] st1]; [ | discriminate].
  rewrite bind_lift. destruct (add_days now 15) as [due | ]; [ | discriminate].
  rewrite bind_lift. destruct n as [c | x]; [cbn [format_num_03d] | discriminate].
  rewrite bind_lift. destruct (dict_get _ "name" _); [ | discriminate].
  rewrite bind_lift. destruct (dict_get _ "address" _); [ | discriminate].
  rewrite bind_lift. destruct (dict_get _ "city" _); [ | discriminate].
  rewrite bind_lift. destruct (xpreformatted _); [ | discriminate].
  rewrite bind_lift. destruct (invoice_totals items) as [[inv g] | ]; [ | discriminate].
  rewrite bind_lift. destruct (format_num_2f (is_subtotal inv)); [ | discriminate].
  rewrite bind_lift. destruct (format_num_2f (is_total_tax inv)); [ | discriminate].
  rewrite bind_lift. destruct (format_num_2f g); [ | discriminate].
  rewrite bind_lift.
  match goal with |- context [build ?s] => destruct (build s) as [f | ] eqn:Hb;
    [ | discriminate]; unfold ret; intros [= <- <- <-];
    exists c, due, inv, g, s end.
  repeat split; auto.
Qed.

(** The text of the customer is handed to the document library before
    the items are read: when the library refuses it, that is the failure
    of the generation, whatever the items are. *)
Lemma generate_invoice_raises_text (items customer : json) (now due : date)
  (st : counter_file) (v0 : Z) (e : exn) :
  last_value st = Some v0 ->
  customer_usable customer = true ->
  xpreformatted (customer_fields customer) = Raise e ->
  add_days now 15 = Ok due ->
  generate_invoice pdf xpreformatted build items customer now st
  = (Raise e, counter_at (v0 + 1)).
Proof.
  intros Hst Hc Hx Hdue. unfold generate_invoice. unfold bind at 1.
  rewrite (allocate_integer_store _ _ Hst).
  rewrite bind_lift, Hdue. rewrite bind_lift. cbn [format_num_03d].
  unfold customer_fields in Hx. cbv zeta in Hx.
  destruct (usable_customer customer Hc) as [kvs Hk]. rewrite Hk in *.
  rewrite bind_lift, dict_get_field. rewrite bind_lift, dict_get_field.
  rewrite bind_lift, dict_get_field. now rewrite bind_lift, Hx.
Qed.

(** A generation that has everything it needs succeeds. *)
Lemma generate_invoice_ok (xs : list json) (ls : list (float * float * float))
  (customer : json) (now due : date) (st : counter_file) (v0 : Z) :
  last_value st = Some v0 ->
  add_days now 15 = Ok due ->
  customer_usable customer = true ->
  xpreformatted (customer_fields customer) = Ok tt ->
  Forall2 (fun x l => item_amounts x = Ok l) xs ls ->
  (forall s, exists file, build s = Ok file) ->
  exists (s : story) (file : pdf),
    generate_invoice pdf xpreformatted build (JArray xs) customer now st
    = (Ok (file, st_invoice_no s), counter_at (v0 + 1))
    /\ build s = Ok file
    /\ st_invoice_no s = invoice_no_text (year now) (format_03d (v0 + 1))
    /\ st_rows s = map row_of (combine xs ls)
    /\ st_subtotal s = "$" ++ show_2f (py_sum (map line_subtotal ls))
    /\ st_tax s = "$" ++ show_2f (py_sum (map line_tax ls))
    /\ st_total s = "$" ++ show_2f (total_of (py_sum (map line_subtotal ls))
                                             (py_sum (map line_tax ls))).
Proof.
  intros Hst Hdue Hc Hx Hxs Hbuild. unfold generate_invoice. unfold bind at 1.
  rewrite (allocate_integer_store _ _ Hst).
  rewrite bind_lift, Hdue. rewrite bind_lift. cbn [format_num_03d].
  unfold customer_fields in Hx. cbv zeta in Hx.
  destruct (usable_customer customer Hc) as [kvs Hk]. rewrite Hk in *.
  rewrite bind_lift, dict_get_field. rewrite bind_lift, dict_get_field.
  rewrite bind_lift, dict_get_field. rewrite bind_lift, Hx.
  rewrite bind_lift, (invoice_totals_ok xs ls Hxs).
  cbn [is_subtotal is_total_tax is_rows].
  rewrite bind_lift, format_sum. rewrite bind_lift, format_sum.
  rewrite bind_lift, format_total. rewrite bind_lift.
  match goal with |- context [build ?s] =>
    destruct (Hbuild s) as [file Hf]; exists s, file; rewrite Hf end.
  repeat split; auto.
Qed.

End Generation.

(** ** The download handler *)

(** A download request with the quantity "abc", on a fresh store: the reply
    is the failure of the float conversion, which carries the text "abc",
    and the counter file now holds 74, so the next invoice gets 75. *)
Lemma bad_quantity_counterexample :
  let request :=
    JObject [("items", JArray [JObject [("description", JString "Widget");
                                        ("qty", JString "abc");
                                        ("price", JInt 10);
                                        ("tax", JInt 10)]])] in
  let now := {| year := 2025; month := 6; day := 1 |} in
  download story (fun _ => Ok tt) (fun s => Ok s) request now Absent
  = (JsonError story (StrOf (ValueError_float "abc")), counter_at 74)
  /\ snd (download story (fun _ => Ok tt) (fun s => Ok s) request now Absent) <> Absent
  /\ get_next_invoice_number (snd (download story (fun _ => Ok tt) (fun s => Ok s) request now Absent))
     = (Ok (PInt 75), counter_at 75).
Proof. split; [reflexivity | split; [discriminate | reflexivity]]. Qed.

Section Download.

Variable pdf : Type.
Variable xpreformatted : json * json * json -> result unit.
Variable build : story -> result pdf.

(** C2, amended: when an item of a non-empty item list carries, as its
    quantity, price or tax, a value that [float] does not accept, and the
    counter file holds an integer or none, the download request fails
    with the text of the exception that was raised, and it fails after
    the allocator has run: the counter file holds the number that was
    allocated.  With a usable customer and a due date in range, the
    exception is the one the item loop raised when the document library
    has accepted the text of the customer, and the one of the library
    when it has not: the text of the customer is parsed before the items
    are read. *)
Theorem bad_field_fails_after_allocation (request : json) (now : date)
  (st : counter_file) (v0 : Z) (xs : list json) :
  dict_get request "items" (JArray []) = Ok (JArray xs) ->
  existsb bad_item xs = true ->
  last_value st = Some v0 ->
  exists e,
    download pdf xpreformatted build request now st
    = (JsonError pdf (StrOf e), counter_at (v0 + 1))
    /\ (forall customer due,
          dict_get request "customer" (JObject []) = Ok customer ->
          customer_usable customer = true ->
          add_days now 15 = Ok due ->
          (xpreformatted (customer_fields customer) = Ok tt ->
           invoice_totals (JArray xs) = Raise e)
          /\ (forall ex, xpreformatted (customer_fields customer) = Raise ex ->
                         e = ex)).
Proof.
  intros Hitems Hbad Hst. unfold download, handle.
  rewrite bind_lift, Hitems.
  destruct (dict_get_object _ _ _ _ Hitems) as [kvs ->].
  destruct (dict_get_total kvs "customer" (JObject [])) as [c Hc].
  rewrite bind_lift, Hc.
  assert (Htruthy : truthy (JArray xs) = true) by now destruct xs.
  rewrite Htruthy. cbn [negb]. unfold bind at 1.
  destruct (bad_item_totals xs Hbad) as [e He].
  destruct (generate_invoice_raises pdf xpreformatted build (JArray xs) c now
              st v0 e Hst He) as [e' Hgen].
  rewrite Hgen. exists e'. split; [reflexivity | ].
  intros customer due Hcust Husable Hdue.
  injection Hcust as <-. split.
  - intros Hx.
    rewrite (generate_invoice_raises_loop pdf xpreformatted build _ _ _ _ _ _ _
               Hst Husable Hx Hdue He) in Hgen.
    now injection Hgen as <-.
  - intros ex Hx.
    rewrite (generate_invoice_raises_text pdf xpreformatted build _ _ _ _ _ _ _
               Hst Husable Hx Hdue) in Hgen.
    now injection Hgen as <-.
Qed.

(** C10: no sign is checked.  Whenever the three amounts of every item can
    be read as floats, negative or not, the preview replies success with
    one entry per item and the totals of the formulas; and the download,
    given a non-empty list, a usable customer, an integer counter, a due
    date in range and a document library that does not fail (on the text
    of the customer and on the story), sends the file built from the rows
    and totals of the same formulas, after allocating one number. *)
Theorem amounts_of_any_sign_accepted (request customer : json)
  (now due : date) (st : counter_file) (v0 : Z) (xs : list json)
  (ls : list (float * float * float)) :
  dict_get request "items" (JArray []) = Ok (JArray xs) ->
  dict_get request "customer" (JObject []) = Ok customer ->
  Forall2 (fun x l => item_amounts x = Ok l) xs ls ->
  truthy (JArray xs) = true ->
  customer_usable customer = true ->
  last_value st = Some v0 ->
  add_days now 15 = Ok due ->
  xpreformatted (customer_fields customer) = Ok tt ->
  (forall s, exists file, build s = Ok file) ->
  calculate pdf request st
  = (JsonOk pdf
       {| cb_items := map calc_item_of (combine xs ls);
          cb_subtotal := show_2f (py_sum (map line_subtotal ls));
          cb_tax := show_2f (py_sum (map line_tax ls));
          cb_total := show_2f (total_of (py_sum (map line_subtotal ls))
                                        (py_sum (map line_tax ls))) |}, st)
  /\ exists (s : story) (file : pdf),
       download pdf xpreformatted build request now st
       = (SendFile pdf file (st_invoice_no s ++ ".pdf"), counter_at (v0 + 1))
       /\ build s = Ok file
       /\ st_rows s = map row_of (combine xs ls)
       /\ st_subtotal s = "$" ++ show_2f (py_sum (map line_subtotal ls))
       /\ st_tax s = "$" ++ show_2f (py_sum (map line_tax ls))
       /\ st_total s = "$" ++ show_2f (total_of (py_sum (map line_subtotal ls))
                                                (py_sum (map line_tax ls))).
Proof.
  intros Hitems Hcust Hxs Htruthy Hc Hst Hdue Hx Hbuild. split.
  - unfold calculate, handle. rewrite bind_lift, Hitems.
    rewrite bind_lift, (calculate_totals_ok xs ls Hxs).
    cbn [cs_subtotal cs_total_tax cs_items].
    rewrite bind_lift, format_sum. rewrite bind_lift, format_sum.
    rewrite bind_lift, format_total. reflexivity.
  - destruct (generate_invoice_ok pdf xpreformatted build xs ls customer now
                due st v0 Hst Hdue Hc Hx Hxs Hbuild)
      as (s & file & Hgen & Hb & _ & Hrows & Hsub & Htax & Htot).
    exists s, file. unfold download, handle.
    rewrite bind_lift, Hitems. rewrite bind_lift, Hcust.
    rewrite Htruthy. cbn [negb]. unfold bind at 1. rewrite Hgen.
    unfold ret. cbn [fst snd]. auto 10.
Qed.

End Download.

Lemma bad_field_fails_after_allocation_witness :
  exists e,
    download story (fun _ => Ok tt) (fun s => Ok s)
      (JObject [("items", JArray [JObject [("qty", JInt 1); ("tax", JString "ten")]])])
      {| year := 2025; month := 6; day := 1 |} (counter_at 80)
    = (JsonError story (StrOf e), counter_at 81).
Proof.
  destruct (bad_field_fails_after_allocation story (fun _ => Ok tt) (fun s => Ok s)
              (JObject [("items", JArray [JObject [("qty", JInt 1); ("tax", JString "ten")]])])
              {| year := 2025; month := 6; day := 1 |} (counter_at 80) 80
              [JObject [("qty", JInt 1); ("tax", JString "ten")]]
              eq_refl eq_refl eq_refl) as [e [He _]].
  now exists e.
Defined.

Lemma amounts_of_any_sign_accepted_witness :
  let item := JObject [("description", JString "Refund"); ("qty", JInt (-2));
                       ("price", JString "1.5"); ("tax", JString "-10")] in
  let request := JObject [("items", JArray [item])] in
  exists body,
    calculate story request Absent = (JsonOk story body, Absent)
    /\ cb_subtotal body = "-3.00" /\ cb_tax body = "0.30"
    /\ cb_total body = "-2.70".
Proof.
  intros item request.
  destruct (amounts_of_any_sign_accepted story (fun _ => Ok tt) (fun s => Ok s) request (JObject [])
              {| year := 2025; month := 6; day := 1 |}
              {| year := 2025; month := 6; day := 16 |} Absent 73 [item]
              [(S754_finite true 4503599627370496 (-51),
                S754_finite false 6755399441055744 (-52),
                S754_finite true 5629499534213120 (-49))])
    as [Hcalc _]; try reflexivity.
  - repeat constructor.
  - intros s. now exists s.
  - eexists. split; [exact Hcalc | ]. repeat split.
Defined.

(** ** Decimal texts *)

Lemma string_of_uint_digits (d : Decimal.uint) :
  all_digits (NilEmpty.string_of_uint d) = true.
Proof. unfold all_digits. induction d; simpl; auto. Qed.

Lemma str_of_N_digits (n : N) : all_digits (str_of_N n) = true.
Proof. apply string_of_uint_digits. Qed.

Lemma str_of_N_nonempty (n : N) : str_of_N n <> "".
Proof.
  unfold str_of_N. destruct n as [ | p]; [discriminate | ].
  simpl. pose proof (DecimalPos.Unsigned.to_uint_nonnil p) as H.
  destruct (Pos.to_uint p); [congruence | discriminate ..].
Qed.

Lemma uint_of_zeros (k : nat) (s : string) :
  option_map N.of_uint (NilEmpty.uint_of_string (zeros k ++ s))
  = option_map N.of_uint (NilEmpty.uint_of_string s).
Proof.
  induction k as [ | k IH]; [reflexivity | ].
  simpl. destruct (NilEmpty.uint_of_string (zeros k ++ s)) as [d | ] eqn:Hd;
    destruct (NilEmpty.uint_of_string s) as [d' | ]; simpl in *;
    try discriminate; auto.
Qed.

Lemma N_of_digits_str (n : N) : N_of_digits (str_of_N n) = Some n.
Proof.
  pose proof (str_of_N_nonempty n) as Hne. unfold N_of_digits.
  destruct (str_of_N n) eqn:Hs; [congruence | ].
  rewrite <- Hs. unfold str_of_N. rewrite NilEmpty.usu. simpl.
  now rewrite DecimalN.Unsigned.of_to.
Qed.

Lemma N_of_digits_zfill (w : nat) (n : N) :
  N_of_digits (zfill w (str_of_N n)) = Some n.
Proof.
  transitivity (N_of_digits (str_of_N n)); [ | apply N_of_digits_str].
  unfold zfill, N_of_digits.
  pose proof (str_of_N_nonempty n) as Hne.
  destruct (str_of_N n) as [ | a s] eqn:Hs; [congruence | ].
  destruct (zeros (w - String.length (String a s)) ++ String a s)%string eqn:Hz.
  - destruct (w - String.length (String a s))%nat; discriminate.
  - rewrite <- Hz. apply uint_of_zeros.
Qed.

Lemma all_digits_app (s t : string) :
  all_digits (s ++ t) = all_digits s && all_digits t.
Proof.
  unfold all_digits. induction s as [ | a s IH]; [reflexivity | ].
  simpl. now rewrite IH, andb_assoc.
Qed.

Lemma zeros_digits (k : nat) : all_digits (zeros k) = true.
Proof. unfold all_digits. induction k; simpl; auto. Qed.

Lemma zfill_digits (w : nat) (n : N) : all_digits (zfill w (str_of_N n)) = true.
Proof.
  unfold zfill. now rewrite all_digits_app, zeros_digits, str_of_N_digits.
Qed.

Lemma length_app (s t : string) :
  String.length (s ++ t) = (String.length s + String.length t)%nat.
Proof. induction s as [ | a s IH]; simpl; auto. Qed.

Lemma length_zeros (k : nat) : String.length (zeros k) = k.
Proof. induction k; simpl; auto. Qed.

Lemma length_zfill (w : nat) (s : string) :
  String.length (zfill w s) = Nat.max w (String.length s).
Proof. unfold zfill. rewrite length_app, length_zeros. lia. Qed.

Lemma int_of_text_digit (a : ascii) (s : string) :
  is_digit a = true ->
  int_of_text (String a s) = option_map Z.of_N (N_of_digits (String a s)).
Proof.
  destruct a as [[] [] [] [] [] [] [] []]; try discriminate; reflexivity.
Qed.

Lemma all_digits_head (s : string) :
  all_digits s = true -> s <> "" ->
  exists a t, s = String a t /\ is_digit a = true.
Proof.
  destruct s as [ | a t]; [congruence | ]. unfold all_digits. simpl.
  intros H _. apply andb_prop in H. exists a, t. tauto.
Qed.

(** The counter field reads back as the number it was made from. *)
Lemma int_of_text_format (c : Z) : int_of_text (format_03d c) = Some c.
Proof.
  unfold format_03d. destruct (Z.ltb_spec c 0) as [Hneg | Hpos].
  - simpl. rewrite N_of_digits_zfill. simpl. f_equal.
    rewrite N2Z.inj_abs_N, Z.abs_neq by lia. apply Z.opp_involutive.
  - pose proof (N_of_digits_zfill 3 (Z.to_N c)) as Hd.
    destruct (all_digits_head (zfill 3 (str_of_N (Z.to_N c)))) as (a & t & Hs & Ha).
    + apply zfill_digits.
    + intros H. apply (f_equal String.length) in H.
      rewrite length_zfill in H. change (String.length "") with 0%nat in H. lia.
    + rewrite Hs in *. rewrite (int_of_text_digit a t Ha), Hd.
      simpl. f_equal. now apply Z2N.id.
Qed.


Lemma Zrange_In (n : nat) : forall lo z,
  lo <= z < lo + Z.of_nat n -> In z (Zrange lo n).
Proof.
  induction n as [ | k IH]; intros lo z Hz; [lia | ].
  simpl. destruct (Z.eq_dec lo z) as [-> | Hne]; [now left | right].
  apply IH. lia.
Qed.

(** A check that holds on every integer of a range holds on each of them. *)
Lemma forallb_Zrange (P : Z -> bool) (lo len : Z) :
  forallb P (Zrange lo (Z.to_nat len)) = true ->
  forall z, lo <= z < lo + len -> P z = true.
Proof.
  intros H z Hz. rewrite forallb_forall in H. apply H, Zrange_In.
  rewrite Z2Nat.id; lia.
Qed.

Lemma str_of_Z_nonneg (z : Z) : 0 <= z -> str_of_Z z = str_of_N (Z.to_N z).
Proof.
  intros Hz. unfold str_of_Z. destruct (Z.ltb_spec z 0); [lia | reflexivity].
Qed.

Lemma year_text_length (y : Z) :
  1000 <= y <= 9999 -> String.length (str_of_Z y) = 4%nat.
Proof.
  intros Hy. apply Nat.eqb_eq.
  apply (forallb_Zrange (fun y => Nat.eqb (String.length (str_of_Z y)) 4)
           1000 9000); [now vm_compute | lia].
Qed.

Lemma year_text (y : Z) :
  1000 <= y <= 9999 ->
  digits 4 (str_of_Z y) /\ N_of_digits (str_of_Z y) = Some (Z.to_N y).
Proof.
  intros Hy. rewrite (str_of_Z_nonneg y) by lia. split; [split | ].
  - rewrite <- (str_of_Z_nonneg y) by lia. now apply year_text_length.
  - apply str_of_N_digits.
  - apply N_of_digits_str.
Qed.

Lemma length_format_03d (c : Z) : (3 <= String.length (format_03d c))%nat.
Proof.
  unfold format_03d. destruct (c <? 0); [simpl | ]; rewrite length_zfill; lia.
Qed.

(** The identifier reads back as the year and the counter it was made from. *)
Lemma parse_invoice_no_text (y c : Z) :
  1000 <= y <= 9999 ->
  parse_invoice_no (invoice_no_text y (format_03d c)) = Some (y, c).
Proof.
  intros Hy. destruct (year_text y Hy) as [[Hlen _] Hval].
  unfold invoice_no_text.
  destruct (str_of_Z y) as [ | a [ | b [ | c' [ | d [ | e s]]]]]; try discriminate.
  cbn [append parse_invoice_no]. rewrite Hval, int_of_text_format.
  do 2 f_equal. now apply Z2N.id; lia.
Qed.

Section Identifier.

Variable pdf : Type.
Variable xpreformatted : json * json * json -> result unit.
Variable build : story -> result pdf.

(** C7: for a four-digit year [y] and every integer [c], the identifier
    made from [y] and [c] is INV-, the four digits of [y], a dash, and [c]
    padded with zeros to at least three characters; reading it back gives
    [(y, c)], so two identifiers are equal only when made from the same
    year and counter; and this is the identifier that a successful
    generation in year [y] returns when the allocator returned [c]. *)
Theorem invoice_no_round_trip (y c : Z) :
  1000 <= y <= 9999 ->
  (exists ytext,
      invoice_no_text y (format_03d c) = "INV-" ++ ytext ++ "-" ++ format_03d c
      /\ digits 4 ytext)
  /\ (3 <= String.length (format_03d c))%nat
  /\ (0 <= c -> all_digits (format_03d c) = true)
  /\ parse_invoice_no (invoice_no_text y (format_03d c)) = Some (y, c)
  /\ (forall y' c',
        1000 <= y' <= 9999 ->
        invoice_no_text y (format_03d c) = invoice_no_text y' (format_03d c') ->
        y = y' /\ c = c')
  /\ (forall items customer now st st' st'' file id,
        year now = y ->
        get_next_invoice_number st = (Ok (PInt c), st') ->
        generate_invoice pdf xpreformatted build items customer now st = (Ok (file, id), st'') ->
        id = invoice_no_text y (format_03d c) /\ st'' = st').
Proof.
  intros Hy. split; [ | split; [ | split; [ | split; [ | split]]]].
  - exists (str_of_Z y). split; [reflexivity | apply year_text, Hy].
  - apply length_format_03d.
  - intros Hc. unfold format_03d. destruct (Z.ltb_spec c 0); [lia | ].
    apply zfill_digits.
  - apply parse_invoice_no_text, Hy.
  - intros y' c' Hy' Heq.
    pose proof (parse_invoice_no_text y c Hy) as H1.
    rewrite Heq, (parse_invoice_no_text y' c' Hy') in H1.
    injection H1 as -> ->. now split.
  - intros items customer now st st' st'' file id <- Halloc Hgen.
    destruct (generate_invoice_inv pdf xpreformatted build _ _ _ _ _ _ _ Hgen)
      as (c' & due & inv & g & s & Halloc' & _ & _ & _ & -> & _).
    rewrite Halloc in Halloc'. now injection Halloc' as -> ->.
Qed.

End Identifier.

Lemma invoice_no_round_trip_witness :
  parse_invoice_no (invoice_no_text 2025 (format_03d 74)) = Some (2025, 74)
  /\ invoice_no_text 2025 (format_03d 74) = "INV-2025-074".
Proof.
  split; [ | reflexivity].
  assert (H : 1000 <= 2025 <= 9999) by lia.
  exact (proj1 (proj2 (proj2 (proj2 (invoice_no_round_trip story (fun _ => Ok tt) (fun s => Ok s)
                                       2025 74 H))))).
Defined.

(** ** The calendar *)

Lemma is_leap_parts (q400 q100 q4 q1 : Z) :
  0 <= q400 -> 0 <= q100 <= 3 -> 0 <= q4 <= 24 -> 0 <= q1 <= 3 ->
  is_leap (q400 * 400 + 1 + q100 * 100 + q4 * 4 + q1)
  = (q1 =? 3) && (negb (q4 =? 24) || (q100 =? 3)).
Proof.
  intros H400 H100 H4 H1. unfold is_leap.
  set (y := q400 * 400 + 1 + q100 * 100 + q4 * 4 + q1).
  assert (E4 : y mod 4 = (q1 + 1) mod 4).
  { unfold y. Z.div_mod_to_equations. lia. }
  assert (E100 : y mod 100 = (q4 * 4 + q1 + 1) mod 100).
  { unfold y. Z.div_mod_to_equations. lia. }
  assert (E400 : y mod 400 = (q100 * 100 + q4 * 4 + q1 + 1) mod 400).
  { unfold y. Z.div_mod_to_equations. lia. }
  rewrite E4, E100, E400. clearbody y.
  destruct (Z.eqb_spec q1 3), (Z.eqb_spec q4 24), (Z.eqb_spec q100 3);
    destruct (Z.eqb_spec ((q1 + 1) mod 4) 0);
    destruct (Z.eqb_spec ((q4 * 4 + q1 + 1) mod 100) 0);
    destruct (Z.eqb_spec ((q100 * 100 + q4 * 4 + q1 + 1) mod 400) 0);
    try reflexivity; exfalso; Z.div_mod_to_equations; lia.
Qed.

Lemma days_before_year_parts (q400 q100 q4 q1 : Z) :
  0 <= q400 -> 0 <= q100 <= 3 -> 0 <= q4 <= 24 -> 0 <= q1 <= 3 ->
  days_before_year (q400 * 400 + 1 + q100 * 100 + q4 * 4 + q1)
  = 146097 * q400 + 36524 * q100 + 1461 * q4 + 365 * q1.
Proof.
  intros H400 H100 H4 H1. unfold days_before_year.
  Z.div_mod_to_equations. lia.
Qed.

Lemma ord2ymd_parts (n : Z) :
  let q400 := (n - 1) / DI400Y in
  let r400 := (n - 1) mod DI400Y in
  let q100 := r400 / DI100Y in
  let r100 := r400 mod DI100Y in
  let q4 := r100 / DI4Y in
  let r4 := r100 mod DI4Y in
  let q1 := r4 / 365 in
  let r1 := r4 mod 365 in
  let y := q400 * 400 + 1 + q100 * 100 + q4 * 4 + q1 in
  let leapyear := (q1 =? 3) && (negb (q4 =? 24) || (q100 =? 3)) in
  ord2ymd n
  = if (q1 =? 4) || (q100 =? 4) then {| year := y - 1; month := 12; day := 31 |}
    else {| year := y;
            month := fst (month_day leapyear r1);
            day := snd (month_day leapyear r1) |}.
Proof.
  intros. unfold ord2ymd, month_day.
  fold q400 r400 q100 r100 q4 r4 q1 r1. fold y. fold leapyear.
  destruct ((q1 =? 4) || (q100 =? 4)); [reflexivity | ].
  match goal with |- context [if ?b then _ else _] => destruct b end; reflexivity.
Qed.

Lemma month_day_checked (leapyear : bool) (r : Z) :
  0 <= r < 365 -> month_day_ok leapyear r = true.
Proof.
  intros Hr. destruct leapyear;
    match goal with |- month_day_ok ?b _ = _ =>
      apply (forallb_Zrange (month_day_ok b) 0 365); [now vm_compute | lia] end.
Qed.

Lemma ord2ymd_correct (n : Z) :
  1 <= n <= MAXORDINAL ->
  valid_date (ord2ymd n) = true /\ ymd2ord (ord2ymd n) = n.
Proof.
  intros Hn. unfold MAXORDINAL in Hn. rewrite ord2ymd_parts. cbv zeta.
  unfold DI400Y, DI100Y, DI4Y.
  set (q400 := (n - 1) / 146097). set (r400 := (n - 1) mod 146097).
  set (q100 := r400 / 36524). set (r100 := r400 mod 36524).
  set (q4 := r100 / 1461). set (r4 := r100 mod 1461).
  set (q1 := r4 / 365). set (r1 := r4 mod 365).
  assert (F : n - 1 = 146097 * q400 + r400 /\ 0 <= r400 < 146097
              /\ r400 = 36524 * q100 + r100 /\ 0 <= r100 < 36524
              /\ r100 = 1461 * q4 + r4 /\ 0 <= r4 < 1461
              /\ r4 = 365 * q1 + r1 /\ 0 <= r1 < 365).
  { unfold q400, r400, q100, r100, q4, r4, q1, r1.
    repeat split; try apply Z.div_mod; try apply Z.mod_pos_bound; lia. }
  clearbody q400 r400 q100 r100 q4 r4 q1 r1.
  destruct F as (F1 & B1 & F2 & B2 & F3 & B3 & F4 & B4).
  assert (0 <= q400 <= 24 /\ 0 <= q100 <= 4 /\ 0 <= q4 <= 24 /\ 0 <= q1 <= 4) as (Q400 & Q100 & Q4 & Q1) by lia.
  destruct (Z.eqb_spec q1 4) as [E1 | N1]; [ | destruct (Z.eqb_spec q100 4) as [E100 | N100]];
    cbn [orb].
  - assert (r1 = 0 /\ q100 <= 3 /\ q4 <= 23) as (R1 & Q100' & Q4') by lia.
    replace (q400 * 400 + 1 + q100 * 100 + q4 * 4 + q1 - 1)
      with (q400 * 400 + 1 + q100 * 100 + q4 * 4 + 3) by lia.
    unfold valid_date, ymd2ord, days_in_month, days_before_month.
    cbn [year month day].
    rewrite is_leap_parts, days_before_year_parts by lia.
    destruct (Z.eqb_spec q4 24); [lia | ].
    change (12 =? 2) with false. change (2 <? 12) with true.
    change (3 =? 3) with true. cbn [andb orb negb].
    change (DAYS_IN_MONTH 12) with 31. change (DAYS_BEFORE_MONTH 12) with 334.
    split; [ | lia].
    repeat (apply andb_true_intro; split); apply Z.leb_le; lia.
  - assert (r100 = 0 /\ q4 = 0 /\ q1 = 0 /\ r1 = 0) as (R100 & Q4' & Q1' & R1) by lia.
    replace (q400 * 400 + 1 + q100 * 100 + q4 * 4 + q1 - 1)
      with (q400 * 400 + 1 + 3 * 100 + 24 * 4 + 3) by lia.
    unfold valid_date, ymd2ord, days_in_month, days_before_month.
    cbn [year month day].
    rewrite is_leap_parts, days_before_year_parts by lia.
    change (12 =? 2) with false. change (2 <? 12) with true.
    change (3 =? 3) with true. change (24 =? 24) with true. cbn [andb orb negb].
    change (DAYS_IN_MONTH 12) with 31. change (DAYS_BEFORE_MONTH 12) with 334.
    split; [ | lia].
    repeat (apply andb_true_intro; split); apply Z.leb_le; lia.
  - pose proof (month_day_checked ((q1 =? 3) && (negb (q4 =? 24) || (q100 =? 3))) r1 B4) as Hmd.
    pose proof (is_leap_parts q400 q100 q4 q1) as Hleap.
    pose proof (days_before_year_parts q400 q100 q4 q1) as Hdby.
    unfold month_day_ok in Hmd.
    destruct (month_day _ r1) as [m d]. cbn [fst snd].
    unfold valid_date, ymd2ord, days_in_month, days_before_month.
    cbn [year month day].
    rewrite Hleap, Hdby by lia.
    set (leap := (q1 =? 3) && (negb (q4 =? 24) || (q100 =? 3))) in *.
    clearbody leap.
    repeat (apply andb_prop in Hmd; destruct Hmd as [Hmd ?]).
    repeat match goal with
           | H : (_ <=? _) = true |- _ => apply Z.leb_le in H
           | H : (_ =? _) = true |- _ => apply Z.eqb_eq in H
           end.
    split; [ | lia].
    repeat (apply andb_true_intro; split); apply Z.leb_le; try lia.
    destruct (Z.eqb_spec m 2) as [-> | ]; [ | cbn [andb] in *; lia].
    destruct leap; cbn in *; lia.
Qed.

Lemma days_before_year_succ (y : Z) :
  days_before_year (y + 1)
  = days_before_year y + 365 + (if is_leap y then 1 else 0).
Proof.
  unfold days_before_year, is_leap.
  replace (y + 1 - 1) with y by lia.
  destruct (Z.eqb_spec (y mod 4) 0), (Z.eqb_spec (y mod 100) 0),
    (Z.eqb_spec (y mod 400) 0); cbn [andb orb negb];
    Z.div_mod_to_equations; lia.
Qed.

Lemma month_cases (m : Z) :
  1 <= m <= 12 ->
  m = 1 \/ m = 2 \/ m = 3 \/ m = 4 \/ m = 5 \/ m = 6 \/ m = 7 \/ m = 8
  \/ m = 9 \/ m = 10 \/ m = 11 \/ m = 12.
Proof. lia. Qed.

Lemma valid_date_parts (d : date) :
  valid_date d = true ->
  1 <= year d <= 9999 /\ 1 <= month d <= 12
  /\ 1 <= day d <= days_in_month (year d) (month d).
Proof.
  unfold valid_date. intros H.
  repeat (apply andb_prop in H; destruct H as [H ?]).
  repeat match goal with
         | H : (_ <=? _) = true |- _ => apply Z.leb_le in H
         end.
  lia.
Qed.

Lemma valid_date_intro (y m d : Z) :
  1 <= y <= 9999 -> 1 <= m <= 12 -> 1 <= d <= days_in_month y m ->
  valid_date {| year := y; month := m; day := d |} = true.
Proof.
  intros Hy Hm Hd. unfold valid_date. cbn [year month day].
  repeat (apply andb_true_intro; split); apply Z.leb_le; lia.
Qed.

(** The day after a date is one day later on the day line. *)
Lemma ymd2ord_next_day (d : date) :
  valid_date d = true ->
  ymd2ord d < MAXORDINAL ->
  valid_date (next_day d) = true
  /\ ymd2ord (next_day d) = ymd2ord d + 1
  /\ year d <= year (next_day d).
Proof.
  intros Hv Hmax. destruct (valid_date_parts d Hv) as (Hy & Hm & Hd).
  destruct d as [y m dd]. cbn [year month day] in *.
  unfold next_day. cbn [year month day].
  destruct (Z.ltb_spec dd (days_in_month y m)) as [Hlt | Hge].
  - split; [apply valid_date_intro; lia | ]. unfold ymd2ord. cbn [year month day]. lia.
  - assert (Hdd : dd = days_in_month y m) by lia.
    destruct (Z.ltb_spec m 12) as [Hm12 | Hm12]; cbn [year month day].
    + split; [ | split; [ | lia]].
      * apply valid_date_intro; try lia. unfold days_in_month.
        destruct (month_cases m Hm) as [-> | [-> | [-> | [-> | [-> | [-> | [-> | [-> | [-> | [-> | [-> | ->]]]]]]]]]]];
          destruct (is_leap y); cbn; lia.
      * unfold ymd2ord. cbn [year month day]. subst dd.
        unfold days_in_month, days_before_month.
        destruct (month_cases m Hm) as [-> | [-> | [-> | [-> | [-> | [-> | [-> | [-> | [-> | [-> | [-> | ->]]]]]]]]]]];
          destruct (is_leap y); cbn; lia.
    + assert (m = 12) by lia. subst m.
      unfold ymd2ord in *. cbn [year month day] in *.
      rewrite days_before_year_succ.
      unfold days_in_month, days_before_month in *.
      change (12 =? 2) with false in *. change (2 <? 12) with true in *.
      change (2 <? 1) with false. cbn [andb] in *.
      change (DAYS_IN_MONTH 12) with 31 in *.
      change (DAYS_BEFORE_MONTH 12) with 334 in *.
      change (DAYS_BEFORE_MONTH 1) with 0.
      assert (Hy' : y < 9999).
      { destruct (Z.eq_dec y 9999) as [-> | ]; [ | lia].
        exfalso. revert Hmax. subst dd. now vm_compute. }
      split; [apply valid_date_intro; try lia; now cbn | ].
      destruct (is_leap y); lia.
Qed.

(** Evaluation of the month tables and of the tests on month numbers. *)
Ltac calendar :=
  cbn [DAYS_IN_MONTH DAYS_BEFORE_MONTH Z.eqb Pos.eqb Z.ltb Z.compare
       Pos.compare Pos.compare_cont andb orb negb] in *.

Lemma days_before_year_mono (y1 y2 : Z) :
  y1 <= y2 -> days_before_year y1 <= days_before_year y2.
Proof. intros H. unfold days_before_year. Z.div_mod_to_equations. lia. Qed.

Lemma day_of_year_bounds (y m d : Z) :
  1 <= m <= 12 -> 1 <= d <= days_in_month y m ->
  1 <= days_before_month y m + d <= 365 + (if is_leap y then 1 else 0).
Proof.
  intros Hm. unfold days_in_month, days_before_month.
  destruct (month_cases m Hm) as [-> | [-> | [-> | [-> | [-> | [-> | [-> | [-> | [-> | [-> | [-> | ->]]]]]]]]]]];
    destruct (is_leap y); calendar; lia.
Qed.

(** Within a year, the day number determines the month and the day. *)
Lemma day_of_year_inj (y m1 d1 m2 d2 : Z) :
  1 <= m1 <= 12 -> 1 <= d1 <= days_in_month y m1 ->
  1 <= m2 <= 12 -> 1 <= d2 <= days_in_month y m2 ->
  days_before_month y m1 + d1 = days_before_month y m2 + d2 ->
  m1 = m2 /\ d1 = d2.
Proof.
  intros Hm1 Hd1 Hm2 Hd2. revert Hd1 Hd2.
  unfold days_in_month, days_before_month.
  destruct (is_leap y);
    destruct (month_cases m1 Hm1) as [-> | [-> | [-> | [-> | [-> | [-> | [-> | [-> | [-> | [-> | [-> | ->]]]]]]]]]]];
    destruct (month_cases m2 Hm2) as [-> | [-> | [-> | [-> | [-> | [-> | [-> | [-> | [-> | [-> | [-> | ->]]]]]]]]]]];
    calendar; lia.
Qed.

Lemma ymd2ord_year_lt (d1 d2 : date) :
  valid_date d1 = true -> valid_date d2 = true ->
  year d1 < year d2 -> ymd2ord d1 < ymd2ord d2.
Proof.
  intros H1 H2 Hlt.
  destruct (valid_date_parts d1 H1) as (Hy1 & Hm1 & Hd1).
  destruct (valid_date_parts d2 H2) as (Hy2 & Hm2 & Hd2).
  pose proof (day_of_year_bounds _ _ _ Hm1 Hd1) as B1.
  pose proof (day_of_year_bounds _ _ _ Hm2 Hd2) as B2.
  pose proof (days_before_year_succ (year d1)) as Hs.
  pose proof (days_before_year_mono (year d1 + 1) (year d2)) as Hmono.
  unfold ymd2ord. lia.
Qed.

(** Two dates with the same ordinal are the same date. *)
Lemma ymd2ord_inj (d1 d2 : date) :
  valid_date d1 = true -> valid_date d2 = true ->
  ymd2ord d1 = ymd2ord d2 -> d1 = d2.
Proof.
  intros H1 H2 Heq.
  assert (Hy : year d1 = year d2).
  { destruct (Z.lt_trichotomy (year d1) (year d2)) as [Hlt | [He | Hgt]]; [ | exact He | ].
    - pose proof (ymd2ord_year_lt d1 d2 H1 H2 Hlt). lia.
    - pose proof (ymd2ord_year_lt d2 d1 H2 H1 ltac:(lia)). lia. }
  destruct (valid_date_parts d1 H1) as (Hy1 & Hm1 & Hd1).
  destruct (valid_date_parts d2 H2) as (Hy2 & Hm2 & Hd2).
  destruct d1 as [y1 m1 dd1], d2 as [y2 m2 dd2]. cbn [year month day] in *.
  subst y2. unfold ymd2ord in Heq. cbn [year month day] in Heq.
  destruct (day_of_year_inj y1 m1 dd1 m2 dd2 Hm1 Hd1 Hm2 Hd2) as [-> ->];
    [lia | reflexivity].
Qed.

Lemma iter_next_day (k : nat) (d : date) :
  valid_date d = true ->
  ymd2ord d + Z.of_nat k <= MAXORDINAL ->
  valid_date (Nat.iter k next_day d) = true
  /\ ymd2ord (Nat.iter k next_day d) = ymd2ord d + Z.of_nat k
  /\ year d <= year (Nat.iter k next_day d).
Proof.
  intros Hv. induction k as [ | k IH]; intros Hmax.
  - simpl Nat.iter. split; [exact Hv | lia].
  - destruct IH as (IHv & IHo & IHy); [lia | ].
    simpl Nat.iter.
    destruct (ymd2ord_next_day (Nat.iter k next_day d) IHv) as (Nv & No & Ny); [lia | ].
    split; [exact Nv | lia].
Qed.

(** Adding [k] days is taking the next day [k] times. *)
Lemma add_days_next_day (d due : date) (k : nat) :
  valid_date d = true ->
  add_days d (Z.of_nat k) = Ok due ->
  due = Nat.iter k next_day d
  /\ valid_date due = true
  /\ ymd2ord due = ymd2ord d + Z.of_nat k
  /\ year d <= year due.
Proof.
  intros Hv. unfold add_days.
  destruct (andb _ _) eqn:Hrange; [ | discriminate]. intros [= <-].
  apply andb_prop in Hrange. destruct Hrange as [Hlo Hhi].
  apply Z.ltb_lt in Hlo. apply Z.leb_le in Hhi.
  destruct (ord2ymd_correct (ymd2ord d + Z.of_nat k)) as [Ov Oo]; [lia | ].
  destruct (iter_next_day k d Hv Hhi) as (Iv & Io & Iy).
  assert (E : ord2ymd (ymd2ord d + Z.of_nat k) = Nat.iter k next_day d).
  { apply ymd2ord_inj; auto. lia. }
  rewrite E. auto.
Qed.

Lemma digits_b_digits (k : nat) (s : string) :
  digits_b k s = true -> digits k s.
Proof.
  unfold digits_b, digits. intros H. apply andb_prop in H.
  destruct H as [Hl Hd]. apply Nat.eqb_eq in Hl. tauto.
Qed.

Lemma days_in_month_le (y m : Z) : days_in_month y m <= 31.
Proof.
  unfold days_in_month. destruct ((m =? 2) && is_leap y); [lia | ].
  destruct m as [ | p | p]; try (cbn; lia).
  do 4 (destruct p as [p | p | ]; try (cbn; lia)).
Qed.

Lemma two_digit_text (m : Z) :
  1 <= m <= 31 ->
  digits 2 (zfill 2 (str_of_Z m))
  /\ N_of_digits (zfill 2 (str_of_Z m)) = Some (Z.to_N m).
Proof.
  intros Hm. split.
  - apply digits_b_digits.
    apply (forallb_Zrange (fun m => digits_b 2 (zfill 2 (str_of_Z m))) 1 31);
      [now vm_compute | lia].
  - rewrite (str_of_Z_nonneg m) by lia. apply N_of_digits_zfill.
Qed.

(** The text of a date from the year 1000 on is of the form YYYY-MM-DD. *)
Lemma strftime_ymd_iso (d : date) :
  valid_date d = true -> 1000 <= year d -> iso_date_text (strftime_ymd d).
Proof.
  intros Hv Hy1000. destruct (valid_date_parts d Hv) as (Hy & Hm & Hd).
  pose proof (days_in_month_le (year d) (month d)) as Hle.
  exists (str_of_Z (year d)), (zfill 2 (str_of_Z (month d))),
    (zfill 2 (str_of_Z (day d))).
  split; [reflexivity | ].
  split; [ | split].
  - apply year_text. lia.
  - apply two_digit_text. lia.
  - apply two_digit_text. lia.
Qed.

(** The text of a date from the year 1000 on reads back as the date. *)
Lemma parse_strftime_ymd (d : date) :
  valid_date d = true -> 1000 <= year d ->
  parse_iso_date (strftime_ymd d) = Some d.
Proof.
  intros Hv Hy1000. destruct (valid_date_parts d Hv) as (Hy & Hm & Hd).
  pose proof (days_in_month_le (year d) (month d)) as Hle.
  destruct d as [y m dd]. cbn [year month day] in *. unfold strftime_ymd.
  cbn [year month day].
  destruct (year_text y) as [[Hylen _] Hyval]; [lia | ].
  destruct (two_digit_text m) as [[Hmlen _] Hmval]; [lia | ].
  destruct (two_digit_text dd) as [[Hdlen _] Hdval]; [lia | ].
  destruct (str_of_Z y) as [ | y1 [ | y2 [ | y3 [ | y4 [ | y5 ys]]]]];
    try discriminate.
  destruct (zfill 2 (str_of_Z m)) as [ | m1 [ | m2 [ | m3 ms]]];
    try discriminate.
  destruct (zfill 2 (str_of_Z dd)) as [ | d1 [ | d2 [ | d3 ds]]];
    try discriminate.
  cbn [append parse_iso_date]. rewrite Hyval, Hmval, Hdval.
  rewrite !Z2N.id by lia. reflexivity.
Qed.

Section DueDate.

Variable pdf : Type.
Variable xpreformatted : json * json * json -> result unit.
Variable build : story -> result pdf.

(** C9: on every invoice that is generated, from the year 1000 on, the
    due date is the generation date moved forward by fifteen days: fifteen
    times the next day on the calendar, fifteen more in the count of
    days; and the document carries both dates in the form YYYY-MM-DD:
    four digits, two digits and two digits that read back as the year,
    the month and the day of the generation date, and of the due date. *)
Theorem due_date_fifteen_days (items customer : json) (now : date)
  (st st' : counter_file) (file : pdf) (id : string) :
  valid_date now = true ->
  1000 <= year now ->
  generate_invoice pdf xpreformatted build items customer now st
  = (Ok (file, id), st') ->
  exists (due : date) (s : story),
    build s = Ok file
    /\ add_days now 15 = Ok due
    /\ due = Nat.iter 15 next_day now
    /\ valid_date due = true
    /\ ymd2ord due = ymd2ord now + 15
    /\ iso_date_text (st_invoice_date s)
    /\ iso_date_text (st_due_date s)
    /\ parse_iso_date (st_invoice_date s) = Some now
    /\ parse_iso_date (st_due_date s) = Some due.
Proof.
  intros Hv Hy Hgen.
  destruct (generate_invoice_inv pdf xpreformatted build _ _ _ _ _ _ _ Hgen)
    as (c & due & inv & g & s & _ & Hdue & _ & Hb & _ & _ & Hdate & Hduetext & _).
  destruct (add_days_next_day now due 15 Hv Hdue) as (Hiter & Hvd & Hord & Hyd).
  exists due, s. rewrite Hdate, Hduetext.
  split; [exact Hb | ]. split; [exact Hdue | ]. split; [exact Hiter | ].
  split; [exact Hvd | ]. split; [exact Hord | ].
  split; [now apply strftime_ymd_iso | ].
  split; [apply strftime_ymd_iso; [exact Hvd | lia] | ].
  split; [now apply parse_strftime_ymd | ].
  apply parse_strftime_ymd; [exact Hvd | lia].
Qed.

End DueDate.

Lemma due_date_fifteen_days_witness :
  let now := {| year := 2025; month := 12; day := 25 |} in
  let items := JArray [JObject [("qty", JInt 1); ("price", JInt 5)]] in
  valid_date now = true
  /\ 1000 <= year now
  /\ exists (due : date) (s : story),
       add_days now 15 = Ok due
       /\ due = Nat.iter 15 next_day now
       /\ parse_iso_date (st_due_date s) = Some due.
Proof.
  intros now items. split; [reflexivity | ]. split; [now vm_compute | ].
  destruct (due_date_fifteen_days story (fun _ => Ok tt) (fun s => Ok s) items
              (JObject []) now Absent _ _ _ eq_refl ltac:(now vm_compute) eq_refl)
    as (due & s & _ & Hadd & Hiter & _ & _ & _ & _ & _ & Htext).
  exists due, s. auto.
Defined.

(** * Further properties of the code *)

(** ** The allocator and its file *)

Lemma allocate_success (st st' : counter_file) (n : num) :
  get_next_invoice_number st = (Ok n, st') -> st' = written n.
Proof.
  unfold get_next_invoice_number, bind, path_exists, json_load, lift, ret,
    json_dump, written.
  destruct st as [ | | | data]; try discriminate.
  - now intros [= <- <-].
  - destruct (dict_get data "last_invoice" (JInt 73)) as [last | ]; [ | discriminate].
    destruct (as_num last) as [m | ]; [cbn [rbind] | discriminate].
    destruct (py_add m (PInt 1)); [ | discriminate]. now intros [= <- <-].
Qed.

Lemma allocate_failure (st st' : counter_file) (e : exn) :
  get_next_invoice_number st = (Raise e, st') -> st' = st.
Proof.
  unfold get_next_invoice_number, bind, path_exists, json_load, lift, ret,
    json_dump.
  destruct st as [ | | | data]; try discriminate; try (now intros [= _ <-]).
  destruct (dict_get data "last_invoice" (JInt 73)) as [last | ];
    [ | now intros [= _ <-]].
  destruct (as_num last) as [m | ]; [cbn [rbind] | now intros [= _ <-]].
  destruct (py_add m (PInt 1)); [discriminate | now intros [= _ <-]].
Qed.

Lemma allocate_written (n : num) :
  exists n', get_next_invoice_number (written n) = (Ok n', written n').
Proof.
  destruct n as [z | x].
  - exists (PInt (z + 1)). reflexivity.
  - exists (PFloat (fadd x f1)). reflexivity.
Qed.

Lemma allocate_many_written (k : nat) : forall n,
  exists vs n', allocate_many k (written n) = (Ok vs, written n')
                /\ List.length vs = k.
Proof.
  induction k as [ | k IH]; intros n.
  - exists [], n. now split.
  - destruct (allocate_written n) as [n1 H1].
    destruct (IH n1) as (vs & n' & Hvs & Hlen).
    exists (n1 :: vs), n'. cbn [allocate_many]. unfold bind at 1.
    rewrite H1. unfold bind at 1. rewrite Hvs. unfold ret.
    split; [reflexivity | simpl; now rewrite Hlen].
Qed.

(** X1: a call that returns a number leaves a file with the single entry
    [last_invoice], holding that number, whatever else the file held
    before. *)
Theorem allocation_rewrites_file (st st' : counter_file) (n : num) :
  get_next_invoice_number st = (Ok n, st') ->
  st' = Content (JObject [("last_invoice", json_of_num n)]).
Proof. apply allocate_success. Qed.

(** X2: the allocator can always read what it wrote: once one call has
    returned a number, any number of further calls in a row all return a
    number. *)
Theorem allocation_stays_readable (st st' : counter_file) (n : num) (k : nat) :
  get_next_invoice_number st = (Ok n, st') ->
  exists vs st'', allocate_many k st' = (Ok vs, st'') /\ List.length vs = k.
Proof.
  intros H. rewrite (allocate_success _ _ _ H).
  destruct (allocate_many_written k n) as (vs & n' & Hvs & Hlen).
  now exists vs, (written n').
Qed.

Lemma allocation_stays_readable_witness :
  exists vs st'',
    allocate_many 4 (Content (JObject [("last_invoice", JInt 8)])) = (Ok vs, st'')
    /\ List.length vs = 4%nat.
Proof.
  exact (allocation_stays_readable
           (Content (JObject [("note", JString "x"); ("last_invoice", JInt 7)]))
           (Content (JObject [("last_invoice", JInt 8)])) (PInt 8) 4 eq_refl).
Defined.

Lemma allocation_rewrites_file_witness :
  snd (get_next_invoice_number
         (Content (JObject [("note", JString "x"); ("last_invoice", JInt 7)])))
  = Content (JObject [("last_invoice", JInt 8)]).
Proof.
  exact (allocation_rewrites_file
           (Content (JObject [("note", JString "x"); ("last_invoice", JInt 7)]))
           _ (PInt 8) eq_refl).
Defined.

(** ** Requests the handlers turn away *)

Section Refusals.

Variable pdf : Type.
Variable xpreformatted : json * json * json -> result unit.
Variable build : story -> result pdf.

Lemma not_object_get (v : json) (key : string) (default : json) :
  is_object v = false -> dict_get v key default = Raise AttributeError.
Proof. destruct v; try reflexivity. discriminate. Qed.

(** X3: the download handler answers "No items provided", and leaves the
    counter file alone, not only for an empty list but whenever the items
    entry is missing or is a value Python takes as false: null, false, 0,
    an empty text, an empty object. *)
Theorem download_without_items (request items : json) (now : date)
  (st : counter_file) :
  dict_get request "items" (JArray []) = Ok items ->
  truthy items = false ->
  download pdf xpreformatted build request now st
  = (JsonError pdf (Message "No items provided"), st).
Proof.
  intros Hitems Hfalse. unfold download, handle. rewrite bind_lift, Hitems.
  destruct (dict_get_object _ _ _ _ Hitems) as [kvs ->].
  destruct (dict_get_total kvs "customer" (JObject [])) as [c Hc].
  rewrite bind_lift, Hc, Hfalse. reflexivity.
Qed.

(** X4: a request body that is not a JSON object (a list, a text, a
    number, null) makes both handlers answer the failure of [.get] on it,
    and neither touches the counter file. *)
Theorem body_must_be_object (request : json) (now : date) (st : counter_file) :
  is_object request = false ->
  calculate pdf request st = (JsonError pdf (StrOf AttributeError), st)
  /\ download pdf xpreformatted build request now st
     = (JsonError pdf (StrOf AttributeError), st).
Proof.
  intros H. unfold calculate, download, handle.
  rewrite !bind_lift, !(not_object_get _ _ _ H). now split.
Qed.

(** The store after [generate_invoice] on an integer counter. *)
Lemma generate_invoice_store (items customer : json) (now : date)
  (st : counter_file) (v0 : Z) :
  last_value st = Some v0 ->
  snd (generate_invoice pdf xpreformatted build items customer now st) = counter_at (v0 + 1).
Proof.
  intros Hst. unfold generate_invoice. unfold bind at 1.
  rewrite (allocate_integer_store _ _ Hst).
  rewrite bind_lift. destruct (add_days now 15); [ | reflexivity].
  rewrite bind_lift. cbn [format_num_03d].
  rewrite bind_lift. destruct (dict_get _ "name" _); [ | reflexivity].
  rewrite bind_lift. destruct (dict_get _ "address" _); [ | reflexivity].
  rewrite bind_lift. destruct (dict_get _ "city" _); [ | reflexivity].
  rewrite bind_lift. destruct (xpreformatted _); [ | reflexivity].
  rewrite bind_lift. destruct (invoice_totals items) as [[inv g] | ]; [ | reflexivity].
  rewrite bind_lift. destruct (format_num_2f (is_subtotal inv)); [ | reflexivity].
  rewrite bind_lift. destruct (format_num_2f (is_total_tax inv)); [ | reflexivity].
  rewrite bind_lift. destruct (format_num_2f g); [ | reflexivity].
  rewrite bind_lift.
  match goal with |- context [build ?s] => destruct (build s) end; reflexivity.
Qed.

(** X5: every download request whose items entry counts as true uses up
    a number: on a counter file that holds an integer (or none), the file
    holds the next number after the call, whether a document was sent or
    the request failed at the dates, the customer, the items or the
    document library. *)
Theorem download_consumes_a_number (request items : json) (now : date)
  (st : counter_file) (v0 : Z) :
  dict_get request "items" (JArray []) = Ok items ->
  truthy items = true ->
  last_value st = Some v0 ->
  snd (download pdf xpreformatted build request now st) = counter_at (v0 + 1).
Proof.
  intros Hitems Htrue Hst. unfold download, handle.
  rewrite bind_lift, Hitems.
  destruct (dict_get_object _ _ _ _ Hitems) as [kvs ->].
  destruct (dict_get_total kvs "customer" (JObject [])) as [c Hc].
  rewrite bind_lift, Hc, Htrue. cbn [negb]. unfold bind at 1.
  pose proof (generate_invoice_store items c now st v0 Hst) as Hgen.
  destruct (generate_invoice pdf xpreformatted build items c now st) as [[r | e] st'];
    cbn [snd] in Hgen; subst st'; reflexivity.
Qed.

Lemma unreadable_counter_raises (st : counter_file) :
  unreadable_counter st = true ->
  exists e, get_next_invoice_number st = (Raise e, st).
Proof.
  destruct st as [ | | | data]; simpl; try discriminate; intros H.
  - now exists PermissionError.
  - now exists JSONDecodeError.
  - unfold get_next_invoice_number, bind, path_exists, json_load, lift; simpl.
    destruct data as [ | | | | | | kvs]; try (now exists AttributeError).
    simpl. destruct (assoc "last_invoice" kvs) as [[ | | | | | | ] | ];
      try discriminate; now exists TypeError.
Qed.

(** X6: when the counter file is there and no number can be read from it,
    a download request with items fails with the exception of the
    allocator, sends nothing and leaves the file as it was. *)
Theorem download_on_damaged_store (request items : json) (now : date)
  (st : counter_file) :
  dict_get request "items" (JArray []) = Ok items ->
  truthy items = true ->
  unreadable_counter st = true ->
  exists e, get_next_invoice_number st = (Raise e, st)
            /\ download pdf xpreformatted build request now st = (JsonError pdf (StrOf e), st).
Proof.
  intros Hitems Htrue Hst.
  destruct (unreadable_counter_raises st Hst) as [e He].
  exists e. split; [exact He | ].
  unfold download, handle. rewrite bind_lift, Hitems.
  destruct (dict_get_object _ _ _ _ Hitems) as [kvs ->].
  destruct (dict_get_total kvs "customer" (JObject [])) as [c Hc].
  rewrite bind_lift, Hc, Htrue. cbn [negb]. unfold bind at 1.
  unfold generate_invoice. unfold bind at 1. now rewrite He.
Qed.

End Refusals.

Lemma download_without_items_witness :
  download story (fun _ => Ok tt) (fun s => Ok s) (JObject [("items", JNull)])
    {| year := 2025; month := 6; day := 1 |} (counter_at 80)
  = (JsonError story (Message "No items provided"), counter_at 80).
Proof.
  exact (download_without_items story (fun _ => Ok tt) (fun s => Ok s)
           (JObject [("items", JNull)]) JNull
           {| year := 2025; month := 6; day := 1 |} (counter_at 80)
           eq_refl eq_refl).
Defined.

Lemma body_must_be_object_witness :
  calculate story (JArray [JInt 1]) Absent
  = (JsonError story (StrOf AttributeError), Absent).
Proof.
  exact (proj1 (body_must_be_object story (fun _ => Ok tt) (fun s => Ok s) (JArray [JInt 1])
                  {| year := 2025; month := 6; day := 1 |} Absent eq_refl)).
Defined.

Lemma download_consumes_a_number_witness :
  snd (download story (fun _ => Ok tt) (fun s => Ok s) (JObject [("items", JInt 5)])
         {| year := 2025; month := 6; day := 1 |} (counter_at 80))
  = counter_at 81.
Proof.
  exact (download_consumes_a_number story (fun _ => Ok tt) (fun s => Ok s)
           (JObject [("items", JInt 5)]) (JInt 5)
           {| year := 2025; month := 6; day := 1 |} (counter_at 80) 80
           eq_refl eq_refl eq_refl).
Defined.

Lemma download_on_damaged_store_witness :
  exists e,
    get_next_invoice_number Garbage = (Raise e, Garbage)
    /\ download story (fun _ => Ok tt) (fun s => Ok s)
         (JObject [("items", JArray [JObject [("qty", JInt 1)]])])
         {| year := 2025; month := 6; day := 1 |} Garbage
       = (JsonError story (StrOf e), Garbage).
Proof.
  exact (download_on_damaged_store story (fun _ => Ok tt) (fun s => Ok s)
           (JObject [("items", JArray [JObject [("qty", JInt 1)]])])
           (JArray [JObject [("qty", JInt 1)]])
           {| year := 2025; month := 6; day := 1 |} Garbage
           eq_refl eq_refl eq_refl).
Defined.

(** ** What a sent document carries *)

Section Documents.

Variable pdf : Type.
Variable xpreformatted : json * json * json -> result unit.
Variable build : story -> result pdf.

(** Everything a successful generation put in the story. *)
Lemma generate_invoice_story (items customer : json) (now : date)
  (st st' : counter_file) (file : pdf) (id : string) :
  generate_invoice pdf xpreformatted build items customer now st = (Ok (file, id), st') ->
  exists (c : Z) (inv : invoice_state) (g : num) (s : story)
         (kvs : list (string * json)) (sub tax tot : string),
    (if truthy customer then customer else default_customer) = JObject kvs
    /\ get_next_invoice_number st = (Ok (PInt c), st')
    /\ invoice_totals items = Ok (inv, g)
    /\ build s = Ok file
    /\ id = invoice_no_text (year now) (format_03d c)
    /\ st_invoice_no s = id
    /\ st_customer s = (field (JObject kvs) "name" (JString "Customer"),
                        field (JObject kvs) "address" (JString ""),
                        field (JObject kvs) "city" (JString ""))
    /\ st_rows s = is_rows inv
    /\ format_num_2f (is_subtotal inv) = Ok sub /\ st_subtotal s = "$" ++ sub
    /\ format_num_2f (is_total_tax inv) = Ok tax /\ st_tax s = "$" ++ tax
    /\ format_num_2f g = Ok tot /\ st_total s = "$" ++ tot.
Proof.
  unfold generate_invoice. unfold bind at 1.
  destruct (get_next_invoice_number st) as [[n | e] st1]; [ | discriminate].
  rewrite bind_lift. destruct (add_days now 15) as [due | ]; [ | discriminate].
  rewrite bind_lift. destruct n as [c | x]; [cbn [format_num_03d] | discriminate].
  rewrite bind_lift.
  destruct (dict_get _ "name" _) as [name | ] eqn:Hname; [ | discriminate].
  destruct (dict_get_object _ _ _ _ Hname) as [kvs Hkvs]. rewrite Hkvs in *.
  rewrite dict_get_field in Hname. injection Hname as <-.
  rewrite bind_lift, dict_get_field. rewrite bind_lift, dict_get_field.
  rewrite bind_lift. destruct (xpreformatted _); [ | discriminate].
  rewrite bind_lift. destruct (invoice_totals items) as [[inv g] | ]; [ | discriminate].
  rewrite bind_lift.
  destruct (format_num_2f (is_subtotal inv)) as [sub | ] eqn:Hsub; [ | discriminate].
  rewrite bind_lift.
  destruct (format_num_2f (is_total_tax inv)) as [tax | ] eqn:Htax; [ | discriminate].
  rewrite bind_lift. destruct (format_num_2f g) as [tot | ] eqn:Htot; [ | discriminate].
  rewrite bind_lift.
  match goal with |- context [build ?s] => destruct (build s) as [f | ] eqn:Hb;
    [ | discriminate]; unfold ret; intros [= <- <- <-];
    exists c, inv, g, s, kvs, sub, tax, tot end.
  repeat (split; [reflexivity || assumption | ]). reflexivity.
Qed.

(** What a download that sent a file went through. *)
Lemma download_sent (request : json) (now : date) (st st' : counter_file)
  (file : pdf) (name : string) :
  download pdf xpreformatted build request now st = (SendFile pdf file name, st') ->
  exists items customer id,
    dict_get request "items" (JArray []) = Ok items
    /\ dict_get request "customer" (JObject []) = Ok customer
    /\ truthy items = true
    /\ generate_invoice pdf xpreformatted build items customer now st = (Ok (file, id), st')
    /\ name = id ++ ".pdf".
Proof.
  unfold download, handle. rewrite bind_lift.
  destruct (dict_get request "items" (JArray [])) as [items | ] eqn:Hi;
    [ | discriminate].
  rewrite bind_lift.
  destruct (dict_get request "customer" (JObject [])) as [customer | ] eqn:Hc;
    [ | discriminate].
  destruct (truthy items) eqn:Htrue; cbn [negb]; [ | discriminate].
  unfold bind at 1.
  destruct (generate_invoice pdf xpreformatted build items customer now st)
    as [[[f id] | e] st1] eqn:Hg; [ | discriminate].
  unfold ret. cbn [fst snd]. intros [= <- <- <-].
  exists items, customer, id. repeat split; assumption.
Qed.

(** X7: a file is sent only for a request with truthy items and only after
    a number was allocated: the allocator returned an integer [c] and left
    the final store, the document was built from a story that carries the
    identifier made of the year and [c], and the name of the download is
    that identifier followed by ".pdf". *)
Theorem sent_file_has_a_number (request : json) (now : date)
  (st st' : counter_file) (file : pdf) (name : string) :
  download pdf xpreformatted build request now st = (SendFile pdf file name, st') ->
  exists (items : json) (c : Z) (s : story),
    dict_get request "items" (JArray []) = Ok items
    /\ truthy items = true
    /\ get_next_invoice_number st = (Ok (PInt c), st')
    /\ build s = Ok file
    /\ st_invoice_no s = invoice_no_text (year now) (format_03d c)
    /\ name = st_invoice_no s ++ ".pdf".
Proof.
  intros H.
  destruct (download_sent _ _ _ _ _ _ H) as (items & customer & id & Hi & _ & Ht & Hg & ->).
  destruct (generate_invoice_story _ _ _ _ _ _ _ Hg)
    as (c & inv & g & s & kvs & sub & tax & tot & _ & Ha & _ & Hb & Hid & Hno & _).
  exists items, c, s. rewrite Hno, <- Hid. auto 10.
Qed.

(** X8: whom a sent document is addressed to.  When the request has no
    customer entry, or one that Python takes as false (null, an empty
    object, an empty text), the document carries the placeholder customer
    John Doe; otherwise the customer is an object and the document carries
    its name, address and city, with "Customer" for a missing name and an
    empty text for a missing address or city. *)
Theorem sent_file_customer (request customer : json) (now : date)
  (st st' : counter_file) (file : pdf) (name : string) :
  download pdf xpreformatted build request now st = (SendFile pdf file name, st') ->
  dict_get request "customer" (JObject []) = Ok customer ->
  exists s : story,
    build s = Ok file
    /\ (truthy customer = false ->
        st_customer s = (JString "John Doe", JString "45 Elm Avenue",
                         JString "Gotham, NY 10001"))
    /\ (truthy customer = true ->
        is_object customer = true
        /\ st_customer s = (field customer "name" (JString "Customer"),
                            field customer "address" (JString ""),
                            field customer "city" (JString ""))).
Proof.
  intros H Hc.
  destruct (download_sent _ _ _ _ _ _ H) as (items & customer' & id & _ & Hc' & _ & Hg & _).
  rewrite Hc in Hc'. injection Hc' as <-.
  destruct (generate_invoice_story _ _ _ _ _ _ _ Hg)
    as (c & inv & g & s & kvs & sub & tax & tot & Hk & _ & _ & Hb & _ & _ & Hcust & _).
  exists s. split; [exact Hb | ]. split; intros Ht; rewrite Ht in Hk.
  - unfold default_customer in Hk. injection Hk as <-. exact Hcust.
  - subst customer. split; [reflexivity | exact Hcust].
Qed.

End Documents.

Lemma sent_file_has_a_number_witness :
  exists (c : Z) (s : story),
    get_next_invoice_number (counter_at 80) = (Ok (PInt c), counter_at 81)
    /\ "INV-2025-081.pdf" = st_invoice_no s ++ ".pdf".
Proof.
  destruct (sent_file_has_a_number story (fun _ => Ok tt) (fun s => Ok s)
              (JObject [("items", JArray [JObject [("qty", JInt 1)]])])
              {| year := 2025; month := 6; day := 1 |}
              (counter_at 80) (counter_at 81) _ "INV-2025-081.pdf" eq_refl)
    as (items & c & s & _ & _ & Ha & _ & _ & Hn).
  exists c, s. now split.
Defined.

Lemma sent_file_customer_witness :
  exists s : story,
    st_customer s = (JString "Ada", JString "", JString "London").
Proof.
  destruct (sent_file_customer story (fun _ => Ok tt) (fun s => Ok s)
              (JObject [("items", JArray [JObject [("qty", JInt 1)]]);
                        ("customer", JObject [("name", JString "Ada");
                                              ("city", JString "London")])])
              (JObject [("name", JString "Ada"); ("city", JString "London")])
              {| year := 2025; month := 6; day := 1 |}
              (counter_at 80) _ _ _ eq_refl eq_refl)
    as (s & _ & _ & Hs).
  exists s. exact (proj2 (Hs eq_refl)).
Defined.

(** ** Failures inside a download *)

Section LateFailures.

Variable pdf : Type.
Variable xpreformatted : json * json * json -> result unit.
Variable build : story -> result pdf.

(** X9: a counter file whose [last_invoice] is a float never yields a
    document: a download request with items, with the due date in range,
    fails at the format of the identifier, and the file has been rewritten
    with the float plus one. *)
Theorem float_counter_blocks_download (request items : json) (now due : date)
  (kvs : list (string * json)) (x : float) :
  dict_get request "items" (JArray []) = Ok items ->
  truthy items = true ->
  assoc "last_invoice" kvs = Some (JFloat x) ->
  add_days now 15 = Ok due ->
  download pdf xpreformatted build request now (Content (JObject kvs))
  = (JsonError pdf (StrOf ValueError_format),
     Content (JObject [("last_invoice", JFloat (fadd x f1))])).
Proof.
  intros Hitems Htrue Hkey Hdue. unfold download, handle.
  rewrite bind_lift, Hitems.
  destruct (dict_get_object _ _ _ _ Hitems) as [rkvs ->].
  destruct (dict_get_total rkvs "customer" (JObject [])) as [c Hc].
  rewrite bind_lift, Hc, Htrue. cbn [negb]. unfold bind at 1.
  unfold generate_invoice. unfold bind at 1.
  assert (Ha : get_next_invoice_number (Content (JObject kvs))
               = (Ok (PFloat (fadd x f1)),
                  Content (JObject [("last_invoice", JFloat (fadd x f1))]))).
  { unfold get_next_invoice_number, bind, path_exists, json_load, lift. simpl.
    now rewrite Hkey. }
  rewrite Ha, bind_lift, Hdue. reflexivity.
Qed.

(** X10: a customer entry that counts as true and is not an object (a
    text, a number, a list) makes the download fail at the first [.get]
    on it, after a number was allocated. *)
Theorem customer_must_be_object (request items customer : json)
  (now due : date) (st : counter_file) (v0 : Z) :
  dict_get request "items" (JArray []) = Ok items ->
  truthy items = true ->
  dict_get request "customer" (JObject []) = Ok customer ->
  truthy customer = true ->
  is_object customer = false ->
  last_value st = Some v0 ->
  add_days now 15 = Ok due ->
  download pdf xpreformatted build request now st
  = (JsonError pdf (StrOf AttributeError), counter_at (v0 + 1)).
Proof.
  intros Hitems Htrue Hc Hct Hco Hst Hdue. unfold download, handle.
  rewrite bind_lift, Hitems. rewrite bind_lift, Hc, Htrue. cbn [negb].
  unfold bind at 1. unfold generate_invoice. unfold bind at 1.
  rewrite (allocate_integer_store _ _ Hst), Hct.
  rewrite bind_lift, Hdue. rewrite bind_lift. cbn [format_num_03d].
  rewrite bind_lift, (not_object_get _ _ _ Hco). reflexivity.
Qed.

End LateFailures.

Lemma float_counter_blocks_download_witness :
  download story (fun _ => Ok tt) (fun s => Ok s)
    (JObject [("items", JArray [JObject [("qty", JInt 1)]])])
    {| year := 2025; month := 6; day := 1 |}
    (Content (JObject [("last_invoice", JFloat (S754_finite false 3 (-1)))]))
  = (JsonError story (StrOf ValueError_format),
     Content (JObject [("last_invoice",
                        JFloat (fadd (S754_finite false 3 (-1)) f1))])).
Proof.
  exact (float_counter_blocks_download story (fun _ => Ok tt) (fun s => Ok s)
           (JObject [("items", JArray [JObject [("qty", JInt 1)]])])
           (JArray [JObject [("qty", JInt 1)]])
           {| year := 2025; month := 6; day := 1 |}
           {| year := 2025; month := 6; day := 16 |}
           [("last_invoice", JFloat (S754_finite false 3 (-1)))]
           (S754_finite false 3 (-1)) eq_refl eq_refl eq_refl eq_refl).
Defined.

Lemma customer_must_be_object_witness :
  download story (fun _ => Ok tt) (fun s => Ok s)
    (JObject [("items", JArray [JObject [("qty", JInt 1)]]);
              ("customer", JString "Ada")])
    {| year := 2025; month := 6; day := 1 |} Absent
  = (JsonError story (StrOf AttributeError), counter_at 74).
Proof.
  exact (customer_must_be_object story (fun _ => Ok tt) (fun s => Ok s)
           (JObject [("items", JArray [JObject [("qty", JInt 1)]]);
                     ("customer", JString "Ada")])
           (JArray [JObject [("qty", JInt 1)]]) (JString "Ada")
           {| year := 2025; month := 6; day := 1 |}
           {| year := 2025; month := 6; day := 16 |} Absent 73
           eq_refl eq_refl eq_refl eq_refl eq_refl eq_refl eq_refl).
Defined.

(** ** Where a loop stops *)

Lemma for_each_app {S : Type} (step : S -> json -> result S)
  (xs ys : list json) : forall st,
  for_each step (xs ++ ys) st
  = (st' <- for_each step xs st ;; for_each step ys st')%res.
Proof.
  induction xs as [ | x xs IH]; intros st; [reflexivity | ].
  cbn [app for_each]. destruct (step st x); [apply IH | reflexivity].
Qed.

Lemma calculate_step_raise (st : calc_state) (item : json) (e : exn) :
  item_amounts item = Raise e -> calculate_step st item = Raise e.
Proof. intros H. now rewrite calculate_step_amounts, H. Qed.

Lemma invoice_step_raise (st : invoice_state) (item : json) (e : exn) :
  item_amounts item = Raise e -> invoice_step st item = Raise e.
Proof.
  intros H. rewrite invoice_step_amounts.
  destruct item; try (injection H as <-; reflexivity).
  rewrite dict_get_field. cbn [rbind]. now rewrite H.
Qed.

Lemma calculate_totals_stop (good rest : list json) (bad : json)
  (ls : list (float * float * float)) (e : exn) :
  Forall2 (fun x l => item_amounts x = Ok l) good ls ->
  item_amounts bad = Raise e ->
  calculate_totals (JArray (good ++ bad :: rest)) = Raise e.
Proof.
  intros Hgood Hbad. unfold calculate_totals, calculate_init.
  cbn [py_iter rbind]. rewrite for_each_app.
  change (PInt 0) with (py_sum []).
  rewrite (calculate_loop good ls Hgood [] [] []). cbn [rbind for_each].
  now rewrite (calculate_step_raise _ _ _ Hbad).
Qed.

Lemma invoice_totals_stop (good rest : list json) (bad : json)
  (ls : list (float * float * float)) (e : exn) :
  Forall2 (fun x l => item_amounts x = Ok l) good ls ->
  item_amounts bad = Raise e ->
  invoice_totals (JArray (good ++ bad :: rest)) = Raise e.
Proof.
  intros Hgood Hbad. unfold invoice_totals, invoice_init.
  cbn [py_iter rbind]. rewrite for_each_app.
  change (PInt 0) with (py_sum []).
  rewrite (invoice_loop good ls Hgood [] [] []). cbn [rbind for_each].
  now rewrite (invoice_step_raise _ _ _ Hbad).
Qed.

Section FirstFailure.

Variable pdf : Type.
Variable xpreformatted : json * json * json -> result unit.
Variable build : story -> result pdf.

(** X11: the preview stops at the first item whose amounts cannot be
    read: the reply is a failure carrying the exception of that item,
    whatever the items after it are, and the counter file is untouched. *)
Theorem calculate_first_failure (request : json) (good rest : list json)
  (bad : json) (ls : list (float * float * float)) (e : exn)
  (st : counter_file) :
  dict_get request "items" (JArray []) = Ok (JArray (good ++ bad :: rest)) ->
  Forall2 (fun x l => item_amounts x = Ok l) good ls ->
  item_amounts bad = Raise e ->
  calculate pdf request st = (JsonError pdf (StrOf e), st).
Proof.
  intros Hitems Hgood Hbad. unfold calculate, handle.
  rewrite bind_lift, Hitems.
  now rewrite bind_lift, (calculate_totals_stop good rest bad ls e Hgood Hbad).
Qed.

(** X12: the download stops at the first item whose amounts cannot be
    read as well: with a usable customer whose name, address and city the
    document library takes as text (they are parsed before the items are
    read), a due date in range and an integer counter, the reply is a
    failure carrying the exception of that item, whatever the items after
    it are, and the number allocated for the request is spent. *)
Theorem download_first_failure (request customer : json)
  (good rest : list json) (bad : json) (ls : list (float * float * float))
  (e : exn) (now due : date) (st : counter_file) (v0 : Z) :
  dict_get request "items" (JArray []) = Ok (JArray (good ++ bad :: rest)) ->
  dict_get request "customer" (JObject []) = Ok customer ->
  customer_usable customer = true ->
  xpreformatted (customer_fields customer) = Ok tt ->
  Forall2 (fun x l => item_amounts x = Ok l) good ls ->
  item_amounts bad = Raise e ->
  last_value st = Some v0 ->
  add_days now 15 = Ok due ->
  download pdf xpreformatted build request now st
  = (JsonError pdf (StrOf e), counter_at (v0 + 1)).
Proof.
  intros Hitems Hc Hu Hx Hgood Hbad Hst Hdue. unfold download, handle.
  rewrite bind_lift, Hitems. rewrite bind_lift, Hc.
  assert (Ht : truthy (JArray (good ++ bad :: rest)) = true)
    by now destruct good.
  rewrite Ht. cbn [negb]. unfold bind at 1.
  now rewrite (generate_invoice_raises_loop pdf xpreformatted build _ _ _ _ _ _ _
                 Hst Hu Hx Hdue
                 (invoice_totals_stop good rest bad ls e Hgood Hbad)).
Qed.

End FirstFailure.

Lemma calculate_first_failure_witness :
  calculate story
    (JObject [("items", JArray [JObject [("qty", JInt 2)];
                                JObject [("price", JNull)];
                                JInt 7])])
    (counter_at 80)
  = (JsonError story (StrOf TypeError), counter_at 80).
Proof.
  apply (calculate_first_failure story _ [JObject [("qty", JInt 2)]] [JInt 7]
           (JObject [("price", JNull)])
           [(S754_finite false 4503599627370496 (-51), f0, f0)]).
  - reflexivity.
  - repeat constructor.
  - reflexivity.
Defined.

Lemma download_first_failure_witness :
  download story (fun _ => Ok tt) (fun s => Ok s)
    (JObject [("items", JArray [JObject [("qty", JInt 2)];
                                JObject [("price", JString "free")]])])
    {| year := 2025; month := 6; day := 1 |} (counter_at 80)
  = (JsonError story (StrOf (ValueError_float "free")), counter_at 81).
Proof.
  apply (download_first_failure story (fun _ => Ok tt) (fun s => Ok s) _ (JObject [])
           [JObject [("qty", JInt 2)]] [] (JObject [("price", JString "free")])
           [(S754_finite false 4503599627370496 (-51), f0, f0)]
           (ValueError_float "free") _
           {| year := 2025; month := 6; day := 16 |} _ 80);
    try reflexivity.
  repeat constructor.
Defined.

(** ** The preview and the document *)

Lemma for_each_calculate_readable (xs : list json) : forall st cs,
  for_each calculate_step xs st = Ok cs ->
  exists ls, Forall2 (fun x l => item_amounts x = Ok l) xs ls.
Proof.
  induction xs as [ | x xs IH]; intros st cs H.
  - exists []. constructor.
  - cbn [for_each] in H.
    destruct (item_amounts x) as [l | e] eqn:Hx.
    + destruct (calculate_step st x) as [st1 | ]; [cbn [rbind] in H | discriminate].
      destruct (IH _ _ H) as [ls Hls]. exists (l :: ls). now constructor.
    + now rewrite (calculate_step_raise st x e Hx) in H.
Qed.

Lemma calculate_totals_iter (items : json) (xs : list json)
  (ls : list (float * float * float)) :
  py_iter items = Ok xs ->
  Forall2 (fun x l => item_amounts x = Ok l) xs ls ->
  calculate_totals items
  = Ok ({| cs_subtotal := py_sum (map line_subtotal ls);
           cs_total_tax := py_sum (map line_tax ls);
           cs_items := map calc_item_of (combine xs ls) |},
        total_of (py_sum (map line_subtotal ls)) (py_sum (map line_tax ls))).
Proof.
  intros Hiter H. unfold calculate_totals, calculate_init. rewrite Hiter.
  cbn [rbind]. change (PInt 0) with (py_sum []).
  rewrite (calculate_loop xs ls H [] [] []). cbn [rbind app cs_subtotal cs_total_tax].
  rewrite py_add_totals by now rewrite !length_map. reflexivity.
Qed.

Lemma invoice_totals_iter (items : json) (xs : list json)
  (ls : list (float * float * float)) :
  py_iter items = Ok xs ->
  Forall2 (fun x l => item_amounts x = Ok l) xs ls ->
  invoice_totals items
  = Ok ({| is_subtotal := py_sum (map line_subtotal ls);
           is_total_tax := py_sum (map line_tax ls);
           is_rows := map row_of (combine xs ls) |},
        total_of (py_sum (map line_subtotal ls)) (py_sum (map line_tax ls))).
Proof.
  intros Hiter H. unfold invoice_totals, invoice_init. rewrite Hiter.
  cbn [rbind]. change (PInt 0) with (py_sum []).
  rewrite (invoice_loop xs ls H [] [] []). cbn [rbind app is_subtotal is_total_tax].
  rewrite py_add_totals by now rewrite !length_map. reflexivity.
Qed.

(** A successful loop of [calculate] read the amounts of every item. *)
Lemma calculate_totals_readable (items : json) (cs : calc_state) (g : num) :
  calculate_totals items = Ok (cs, g) ->
  exists xs ls, py_iter items = Ok xs
                /\ Forall2 (fun x l => item_amounts x = Ok l) xs ls.
Proof.
  unfold calculate_totals.
  destruct (py_iter items) as [xs | ]; [cbn [rbind] | discriminate].
  destruct (for_each calculate_step xs calculate_init) as [cs' | ] eqn:Hloop;
    [ | discriminate].
  intros _. destruct (for_each_calculate_readable _ _ _ Hloop) as [ls Hls].
  now exists xs, ls.
Qed.

Section Agreement.

Variable pdf : Type.
Variable xpreformatted : json * json * json -> result unit.
Variable build : story -> result pdf.

(** What a preview that replied success went through. *)
Lemma calculate_replied (request : json) (st st' : counter_file)
  (body : calc_body) :
  calculate pdf request st = (JsonOk pdf body, st') ->
  exists items cs g,
    dict_get request "items" (JArray []) = Ok items
    /\ calculate_totals items = Ok (cs, g)
    /\ cb_items body = cs_items cs
    /\ format_num_2f (cs_subtotal cs) = Ok (cb_subtotal body)
    /\ format_num_2f (cs_total_tax cs) = Ok (cb_tax body)
    /\ format_num_2f g = Ok (cb_total body).
Proof.
  unfold calculate, handle. rewrite bind_lift.
  destruct (dict_get request "items" (JArray [])) as [items | ] eqn:Hi;
    [ | discriminate].
  rewrite bind_lift.
  destruct (calculate_totals items) as [[cs g] | ] eqn:Ht; [ | discriminate].
  rewrite bind_lift.
  destruct (format_num_2f (cs_subtotal cs)) eqn:H1; [ | discriminate].
  rewrite bind_lift.
  destruct (format_num_2f (cs_total_tax cs)) eqn:H2; [ | discriminate].
  rewrite bind_lift. destruct (format_num_2f g) eqn:H3; [ | discriminate].
  unfold ret. intros [= <- <-]. exists items, cs, g. auto 10.
Qed.

(** X13: the document agrees with the preview.  When the preview of a
    request replied success and the download of the same request sent a
    file, the document was built from a story whose three totals are
    those of the preview with a dollar sign in front, and whose rows are
    the entries of the preview, one for one and in the same order: same
    description, same quantity, same tax entry, and the line total of the
    entry shown with two decimals. *)
Theorem document_matches_preview (request : json) (now : date)
  (st0 st0' st st' : counter_file) (body : calc_body) (file : pdf)
  (name : string) :
  calculate pdf request st0 = (JsonOk pdf body, st0') ->
  download pdf xpreformatted build request now st = (SendFile pdf file name, st') ->
  exists s : story,
    build s = Ok file
    /\ st_subtotal s = "$" ++ cb_subtotal body
    /\ st_tax s = "$" ++ cb_tax body
    /\ st_total s = "$" ++ cb_total body
    /\ map row_description (st_rows s) = map ci_description (cb_items body)
    /\ map row_qty (st_rows s) = map ci_qty (cb_items body)
    /\ map row_tax (st_rows s) = map ci_tax (cb_items body)
    /\ map row_total (st_rows s)
       = map (fun ci => "$" ++ format_2f (ci_line_total ci)) (cb_items body).
Proof.
  intros Hcalc Hdown.
  destruct (calculate_replied _ _ _ _ Hcalc)
    as (items & cs & g & Hi & Ht & Hitems & Hsub & Htax & Htot).
  destruct (calculate_totals_readable _ _ _ Ht) as (xs & ls & Hiter & Hls).
  rewrite (calculate_totals_iter items xs ls Hiter Hls) in Ht.
  injection Ht as <- <-. cbn [cs_subtotal cs_total_tax cs_items] in *.
  destruct (download_sent pdf xpreformatted build _ _ _ _ _ _ Hdown)
    as (items' & customer & id & Hi' & _ & _ & Hg & _).
  rewrite Hi in Hi'. injection Hi' as <-.
  destruct (generate_invoice_story pdf xpreformatted build _ _ _ _ _ _ _ Hg)
    as (c & inv & g' & s & kvs & sub & tax & tot & _ & _ & Hinv & Hb & _ & _ & _
        & Hrows & Hsub' & Hssub & Htax' & Hstax & Htot' & Hstot).
  rewrite (invoice_totals_iter items xs ls Hiter Hls) in Hinv.
  injection Hinv as <- <-. cbn [is_subtotal is_total_tax is_rows] in *.
  exists s. rewrite Hssub, Hstax, Hstot, Hrows, Hitems.
  rewrite Hsub in Hsub'. rewrite Htax in Htax'. rewrite Htot in Htot'.
  injection Hsub' as <-. injection Htax' as <-. injection Htot' as <-.
  rewrite !map_map.
  repeat (split; [reflexivity || exact Hb
                  || (apply map_ext; intros [x l]; reflexivity) | ]).
  apply map_ext. intros [x l]. reflexivity.
Qed.

End Agreement.

Lemma document_matches_preview_witness :
  let request :=
    JObject [("items", JArray [JObject [("description", JString "Widget");
                                        ("qty", JInt 2); ("price", JInt 10);
                                        ("tax", JInt 10)]])] in
  exists (body : calc_body) (s : story),
    fst (calculate story request Absent) = JsonOk story body
    /\ st_total s = "$" ++ cb_total body.
Proof.
  intros request.
  destruct (document_matches_preview story (fun _ => Ok tt) (fun s => Ok s) request
              {| year := 2025; month := 6; day := 1 |}
              Absent _ Absent _ _ _ _ eq_refl eq_refl)
    as (s & _ & _ & _ & Htot & _).
  eexists. exists s. split; [reflexivity | exact Htot].
Defined.

(** ** Items that are not a list, items without amounts *)

Lemma fold_zeros (n : nat) : fold_left fadd (repeat f0 n) f0 = f0.
Proof. induction n as [ | n IH]; [reflexivity | exact IH]. Qed.

Lemma show_sum_zeros (n : nat) : show_2f (py_sum (repeat f0 n)) = "0.00".
Proof.
  destruct n as [ | n]; [reflexivity | ].
  cbn [repeat py_sum show_2f]. change (fadd f0 f0) with f0.
  now rewrite fold_zeros.
Qed.

Lemma show_total_zeros (n : nat) :
  show_2f (total_of (py_sum (repeat f0 n)) (py_sum (repeat f0 n))) = "0.00".
Proof.
  destruct n as [ | n]; [reflexivity | ].
  cbn [repeat py_sum total_of show_2f]. change (fadd f0 f0) with f0.
  now rewrite fold_zeros.
Qed.

Lemma no_amounts_read (xs : list json) :
  forallb no_amounts xs = true ->
  Forall2 (fun x l => item_amounts x = Ok l) xs
    (repeat (f0, f0, f0) (List.length xs)).
Proof.
  induction xs as [ | x xs IH]; [constructor | ].
  cbn [forallb List.length repeat]. intros H. apply andb_prop in H.
  destruct H as [Hx Hxs]. constructor; [ | now apply IH].
  destruct x as [ | | | | | | kvs]; try discriminate.
  unfold no_amounts in Hx. unfold item_amounts. simpl.
  destruct (assoc "qty" kvs); [discriminate | ].
  destruct (assoc "price" kvs); [discriminate | ].
  destruct (assoc "tax" kvs); [discriminate | reflexivity].
Qed.

Lemma line_subtotal_zeros (n : nat) :
  map line_subtotal (repeat (f0, f0, f0) n) = repeat f0 n.
Proof.
  induction n as [ | n IH]; [reflexivity | ]. cbn [repeat map]. now rewrite IH.
Qed.

Lemma line_tax_zeros (n : nat) :
  map line_tax (repeat (f0, f0, f0) n) = repeat f0 n.
Proof.
  induction n as [ | n IH]; [reflexivity | ]. cbn [repeat map]. now rewrite IH.
Qed.

Section OddItems.

Variable pdf : Type.

(** X14: items that are not a list.  The preview fails with a TypeError
    when the items entry is null, a bool or a number; it fails with the
    AttributeError of [.get] on a text when the entry is a non-empty text
    or a non-empty object, whose characters or keys the loop takes for
    items; and it replies success with no entries and zero totals when
    the entry is an empty text or an empty object. *)
Theorem calculate_items_not_a_list (request items : json) (st : counter_file) :
  dict_get request "items" (JArray []) = Ok items ->
  (is_scalar items = true ->
   calculate pdf request st = (JsonError pdf (StrOf TypeError), st))
  /\ (is_keyed items = true -> truthy items = true ->
      calculate pdf request st = (JsonError pdf (StrOf AttributeError), st))
  /\ (is_keyed items = true -> truthy items = false ->
      calculate pdf request st = (JsonOk pdf zero_totals, st)).
Proof.
  intros Hitems. unfold calculate, handle. rewrite bind_lift, Hitems.
  rewrite bind_lift. split; [ | split].
  - destruct items; try discriminate; reflexivity.
  - destruct items as [ | | | | s | | kvs]; try discriminate; intros _.
    + destruct s; [discriminate | reflexivity].
    + destruct kvs as [ | [k v] kvs]; [discriminate | reflexivity].
  - destruct items as [ | | | | s | | kvs]; try discriminate; intros _.
    + destruct s; [reflexivity | discriminate].
    + destruct kvs as [ | [k v] kvs]; [reflexivity | discriminate].
Qed.

(** X15: amounts that are missing are read as zero.  When every item of
    the list is an object with no qty, no price and no tax, the preview
    replies success with one entry per item, each with quantity, price
    and line total zero, and the three totals read 0.00. *)
Theorem calculate_without_amounts (request : json) (xs : list json)
  (st : counter_file) :
  dict_get request "items" (JArray []) = Ok (JArray xs) ->
  forallb no_amounts xs = true ->
  exists body,
    calculate pdf request st = (JsonOk pdf body, st)
    /\ List.length (cb_items body) = List.length xs
    /\ Forall (fun ci => ci_qty ci = f0 /\ ci_price ci = f0
                         /\ ci_line_total ci = f0) (cb_items body)
    /\ cb_subtotal body = "0.00" /\ cb_tax body = "0.00"
    /\ cb_total body = "0.00".
Proof.
  intros Hitems Hno. pose proof (no_amounts_read xs Hno) as Hread.
  unfold calculate, handle. rewrite bind_lift, Hitems.
  rewrite bind_lift, (calculate_totals_ok xs _ Hread).
  cbn [cs_subtotal cs_total_tax cs_items].
  rewrite bind_lift, format_sum. rewrite bind_lift, format_sum.
  rewrite bind_lift, format_total. unfold ret. eexists. split; [reflexivity | ].
  cbn [cb_items cb_subtotal cb_tax cb_total].
  rewrite line_subtotal_zeros, line_tax_zeros, show_sum_zeros, show_total_zeros.
  split; [ | split; [ | auto]].
  - rewrite length_map, length_combine, repeat_length. lia.
  - apply Forall_forall. intros ci Hin. apply in_map_iff in Hin.
    destruct Hin as [[x l] [<- Hin]]. apply in_combine_r in Hin.
    apply repeat_spec in Hin. subst l. now repeat split.
Qed.

End OddItems.

Lemma calculate_items_not_a_list_witness :
  calculate story (JObject [("items", JObject [("qty", JInt 2)])]) Absent
  = (JsonError story (StrOf AttributeError), Absent).
Proof.
  exact (proj1 (proj2 (calculate_items_not_a_list story
                         (JObject [("items", JObject [("qty", JInt 2)])])
                         (JObject [("qty", JInt 2)]) Absent eq_refl))
           eq_refl eq_refl).
Defined.

Lemma calculate_without_amounts_witness :
  exists body,
    calculate story
      (JObject [("items", JArray [JObject [("description", JString "Gift")];
                                  JObject []])]) Absent
    = (JsonOk story body, Absent)
    /\ List.length (cb_items body) = 2%nat
    /\ cb_total body = "0.00".
Proof.
  destruct (calculate_without_amounts story
              (JObject [("items", JArray [JObject [("description", JString "Gift")];
                                          JObject []])])
              [JObject [("description", JString "Gift")]; JObject []] Absent
              eq_refl eq_refl)
    as (body & Hc & Hlen & _ & _ & _ & Htot).
  exists body. auto.
Defined.

(** ** Numbers from one request to the next *)

Lemma for_each_invoice_readable (xs : list json) : forall st inv,
  for_each invoice_step xs st = Ok inv ->
  exists ls, Forall2 (fun x l => item_amounts x = Ok l) xs ls.
Proof.
  induction xs as [ | x xs IH]; intros st inv H.
  - exists []. constructor.
  - cbn [for_each] in H.
    destruct (item_amounts x) as [l | e] eqn:Hx.
    + destruct (invoice_step st x) as [st1 | ]; [cbn [rbind] in H | discriminate].
      destruct (IH _ _ H) as [ls Hls]. exists (l :: ls). now constructor.
    + now rewrite (invoice_step_raise st x e Hx) in H.
Qed.

(** A successful loop of [generate_invoice] went through a list of
    items and read the amounts of each. *)
Lemma invoice_totals_readable (items : json) (inv : invoice_state) (g : num) :
  invoice_totals items = Ok (inv, g) ->
  truthy items = true ->
  exists xs ls, items = JArray xs
                /\ Forall2 (fun x l => item_amounts x = Ok l) xs ls.
Proof.
  unfold invoice_totals.
  destruct (py_iter items) as [xs | ] eqn:Hiter; [cbn [rbind] | discriminate].
  destruct (for_each invoice_step xs invoice_init) as [inv' | ] eqn:Hloop;
    [ | discriminate].
  intros _ Htrue. destruct (for_each_invoice_readable _ _ _ Hloop) as [ls Hls].
  destruct items as [ | | | | s | l | kvs]; try discriminate.
  - destruct s as [ | a s]; [discriminate | ].
    injection Hiter as <-. inversion Hls; discriminate.
  - injection Hiter as <-. now exists l, ls.
  - destruct kvs as [ | [k v] kvs]; [discriminate | ].
    injection Hiter as <-. inversion Hls; discriminate.
Qed.

Section Sequence.

Variable pdf : Type.
Variable xpreformatted : json * json * json -> result unit.
Variable build : story -> result pdf.

Lemma download_store_after (request items : json) (now : date)
  (st : counter_file) (v0 : Z) :
  dict_get request "items" (JArray []) = Ok items ->
  truthy items = true ->
  last_value st = Some v0 ->
  snd (download pdf xpreformatted build request now st) = counter_at (v0 + 1).
Proof.
  intros Hitems Htrue Hst. unfold download, handle.
  rewrite bind_lift, Hitems.
  destruct (dict_get_object _ _ _ _ Hitems) as [kvs ->].
  destruct (dict_get_total kvs "customer" (JObject [])) as [c Hc].
  rewrite bind_lift, Hc, Htrue. cbn [negb]. unfold bind at 1.
  pose proof (generate_invoice_store pdf xpreformatted build items c now st v0 Hst) as Hgen.
  destruct (generate_invoice pdf xpreformatted build items c now st) as [[r | e] st'];
    cbn [snd] in Hgen; subst st'; reflexivity.
Qed.

(** X16: failed requests leave gaps in the numbering.  When a download
    request with truthy items, on a counter file that holds the integer
    [v0] (or none, read as 73), is followed by a download that sends a
    file, that file is numbered [v0 + 2], whether the first request sent a
    document or failed, and the counter file then holds [v0 + 2]. *)
Theorem next_document_skips_a_number (first second items : json)
  (now now' : date) (st st' : counter_file) (v0 : Z) (file : pdf)
  (name : string) :
  dict_get first "items" (JArray []) = Ok items ->
  truthy items = true ->
  last_value st = Some v0 ->
  download pdf xpreformatted build second now' (snd (download pdf xpreformatted build first now st))
  = (SendFile pdf file name, st') ->
  name = invoice_no_text (year now') (format_03d (v0 + 2)) ++ ".pdf"
  /\ st' = counter_at (v0 + 2).
Proof.
  intros Hitems Htrue Hst.
  rewrite (download_store_after first items now st v0 Hitems Htrue Hst).
  intros Hsent.
  destruct (download_sent pdf xpreformatted build _ _ _ _ _ _ Hsent)
    as (items' & customer & id & _ & _ & _ & Hg & ->).
  destruct (generate_invoice_story pdf xpreformatted build _ _ _ _ _ _ _ Hg)
    as (c & inv & g & s & kvs & sub & tax & tot & _ & Ha & _ & _ & -> & _).
  rewrite allocate_from_counter in Ha. injection Ha as <- <-.
  replace (v0 + 1 + 1) with (v0 + 2) by lia. now split.
Qed.

(** X17: a file is sent only for a non-empty list of items whose amounts
    can all be read: when a download sends a file, the items entry of the
    request is a list, it is not empty, and for each of its items the
    three amounts were read as floats. *)
Theorem sent_file_had_readable_items (request : json) (now : date)
  (st st' : counter_file) (file : pdf) (name : string) :
  download pdf xpreformatted build request now st = (SendFile pdf file name, st') ->
  exists (xs : list json) (ls : list (float * float * float)),
    dict_get request "items" (JArray []) = Ok (JArray xs)
    /\ xs <> []
    /\ Forall2 (fun x l => item_amounts x = Ok l) xs ls.
Proof.
  intros Hsent.
  destruct (download_sent pdf xpreformatted build _ _ _ _ _ _ Hsent)
    as (items & customer & id & Hi & _ & Ht & Hg & _).
  destruct (generate_invoice_story pdf xpreformatted build _ _ _ _ _ _ _ Hg)
    as (c & inv & g & s & kvs & sub & tax & tot & _ & _ & Hinv & _).
  destruct (invoice_totals_readable _ _ _ Hinv Ht) as (xs & ls & -> & Hls).
  exists xs, ls. split; [exact Hi | ]. split; [ | exact Hls].
  intros ->. discriminate.
Qed.

End Sequence.

Lemma next_document_skips_a_number_witness :
  let bad := JObject [("items", JArray [JObject [("qty", JString "abc")]])] in
  let good := JObject [("items", JArray [JObject [("qty", JInt 1)]])] in
  let now := {| year := 2025; month := 6; day := 1 |} in
  exists (file : story) (st' : counter_file),
    download story (fun _ => Ok tt) (fun s => Ok s) good now
      (snd (download story (fun _ => Ok tt) (fun s => Ok s) bad now (counter_at 80)))
    = (SendFile story file "INV-2025-082.pdf", st')
    /\ st' = counter_at 82.
Proof.
  intros bad good now. eexists. eexists. split; [reflexivity | ].
  exact (proj2 (next_document_skips_a_number story (fun _ => Ok tt) (fun s => Ok s) bad good
                  (JArray [JObject [("qty", JString "abc")]]) now now
                  (counter_at 80) _ 80 _ _ eq_refl eq_refl eq_refl eq_refl)).
Defined.

Lemma sent_file_had_readable_items_witness :
  exists (xs : list json) (ls : list (float * float * float)),
    xs <> [] /\ Forall2 (fun x l => item_amounts x = Ok l) xs ls.
Proof.
  destruct (sent_file_had_readable_items story (fun _ => Ok tt) (fun s => Ok s)
              (JObject [("items", JArray [JObject [("qty", JInt 1)]])])
              {| year := 2025; month := 6; day := 1 |} Absent _ _ _ eq_refl)
    as (xs & ls & _ & Hne & Hls).
  now exists xs, ls.
Defined.
